(** * TaskFlow backend: calendar synchronisation of tasks

    A shallow embedding of [taskflow-backend/src/server.js]: the Express
    handlers for the task CRUD routes and the OAuth callback, the helpers
    [calendarClientFor] and [upsertCalendarEvent], and the collaborators
    they talk to (Firestore, the shared OAuth2 client, the calendar
    provider), followed by the properties of the calendar-sync core.

    Conventions.
    - JavaScript values are the inductive [value]; objects are finite maps
      from property names to values.
    - Firestore is one finite map from document paths to documents.
    - A handler is a function in the monad [M]: it threads the [World]
      (database, OAuth client, calendar, trace of outgoing calls, clock)
      and either returns or throws.  Writes made before a throw persist.
    - Code of other packages (Firebase token verification, [JSON.parse],
      the OAuth code exchange, luxon's ISO parser) is taken as a parameter,
      bundled in [Externals].

    Limits of the model.
    - One handler runs at a time; the interleavings of concurrent requests
      are not modelled.
    - Firestore itself never fails: the only rejection modelled is that of
      [update] on a missing document.  Values that reach it (parsed JSON
      bodies, stored documents, exchanged tokens, event ids) are assumed
      free of [undefined], which Firestore would refuse, and user ids free
      of the path separator.
    - The calendar provider is a finite map of events behind a switch: a
      call fails when the provider is out of reach, or when it names an
      event that does not exist; an update answers with the id it was
      given.  The calendars of different accounts are not told apart.
    - A token refresh is an event of its own ([emit_tokens]), not a part of
      a provider call: the listeners write to the credential store only,
      which a handler reads before its provider call. *)

From stdpp Require Import gmap strings list fin_maps stringmap.
From Stdlib Require Import ZArith.

Set Warnings "-register-all,-clear-no-such-hyp".

Open Scope Z_scope.
Open Scope string_scope.
Open Scope list_scope.

(* ===================================================================== *)
(** * JavaScript values                                                   *)
(* ===================================================================== *)

Module JS.

(** Numbers are integers here: only their truthiness is ever observed. *)
Inductive value : Type :=
  | VUndef
  | VNull
  | VBool (b : bool)
  | VNum (n : Z)
  | VStr (s : string)
  | VDate (t : Z)
  | VArr (l : list value)
  | VObj (m : gmap string value).

(** [!!v] *)
Definition truthy (v : value) : bool :=
  match v with
  | VUndef | VNull => false
  | VBool b => b
  | VNum n => negb (Z.eqb n 0)
  | VStr s => negb (String.eqb s "")
  | VDate _ | VArr _ | VObj _ => true
  end.

(** [a || b] *)
Definition or (a b : value) : value := if truthy a then a else b.

(** [v?.k], and [v.k] on a value that is neither [null] nor [undefined]. *)
Definition prop (v : value) (k : string) : value :=
  match v with
  | VObj m => default VUndef (m !! k)
  | _ => VUndef
  end.

(** The own properties copied by [{ ...v }] ([null] and [undefined]
    contribute nothing). *)
Definition spread (v : value) : gmap string value :=
  match v with
  | VObj m => m
  | _ => ∅
  end.

(** [const { k = d } = o]: the default applies when the property is
    missing or [undefined]. *)
Definition field_or (o : gmap string value) (k : string) (d : value) : value :=
  match o !! k with
  | Some VUndef | None => d
  | Some v => v
  end.

(** [v !== false] *)
Definition not_false (v : value) : bool :=
  match v with
  | VBool false => false
  | _ => true
  end.

End JS.
Export JS.

Abbreviation obj := (gmap string value).

(* ===================================================================== *)
(** * Firestore                                                           *)
(* ===================================================================== *)

Module Firestore.

(** A document reference is its path, e.g.
    [users/<uid>/tasks/<id>]; the database maps paths to documents. *)
Abbreviation path := (list string).
Abbreviation database := (gmap (list string) (gmap string value)).

(** [set(data, { merge: true })] on one field: a non-empty map is merged
    into an existing map field by field, recursively; every other value
    (an empty map included) replaces the stored one. *)
Fixpoint merge_value (old new : value) {struct old} : value :=
  match old, new with
  | VObj mo, VObj mn =>
      if decide (mn = ∅) then new
      else VObj (union_with (λ o n, Some (merge_value o n)) mo mn)
  | _, _ => new
  end.

Definition merge_fields (old new : obj) : obj :=
  union_with (λ o n, Some (merge_value o n)) old new.

(** [ref.set(data, { merge: true })]: creates the document when absent. *)
Definition set_merge (p : path) (data : obj) (db : database) : database :=
  <[p := merge_fields (default ∅ (db !! p)) data]> db.

(** [ref.update(data)] on an existing document: the named top-level
    fields are replaced.  (On a missing document the call rejects; see
    [doc_update] below.) *)
Definition update_fields (old data : obj) : obj := data ∪ old.

(** The ids already used as last path component. *)
Definition doc_ids (db : database) : gset string :=
  set_map (λ p : path, default "" (last p)) (dom db).

(** [collection.add] picks an id that no document carries. *)
Definition auto_id (db : database) : string :=
  fresh_string_of_set "doc" ({[ "" ]} ∪ doc_ids db).

End Firestore.
Export Firestore.

(** [db.collection('users').doc(uid).collection('tasks').doc(id)] *)
Definition taskRef (uid id : string) : path := ["users"; uid; "tasks"; id].

(** [db.collection('userSecrets').doc(uid).collection('integrations').doc('google')] *)
Definition userTokensRef (uid : string) : path :=
  ["userSecrets"; uid; "integrations"; "google"].

(* ===================================================================== *)
(** * The calendar provider                                               *)
(* ===================================================================== *)

Module Calendar.

(** [{ dateTime: dt.toISO(), timeZone: dt.zoneName }].  The ISO text is
    represented by the instant it denotes, in milliseconds since the
    epoch; [None] is the [null] luxon prints for an invalid DateTime. *)
Record EventTime := { dateTime : option Z; timeZone : value }.

(** The [requestBody] of [events.insert] and [events.update]. *)
Record Event := {
  summary : value;
  description : value;
  start : EventTime;
  end_ : EventTime;
}.

(** The provider's view of the primary calendar: whether the service can
    be reached, and the events it holds by id. *)
Record Service := { online : bool; events : gmap string Event }.

(** The id the provider gives to a new event: non-empty and unused. *)
Definition mint (c : Service) : string :=
  fresh_string_of_set "evt" ({[ "" ]} ∪ dom (events c)).

(** [events.insert]: rejects when unreachable; otherwise stores the event
    under an id of the provider's choosing. *)
Definition insert (ev : Event) (c : Service) : option (string * Service) :=
  if online c then
    Some (mint c, {| online := online c; events := <[mint c := ev]> (events c) |})
  else None.

(** [events.update]: rejects when unreachable or when no event carries the
    id; otherwise replaces the event and answers with the same id. *)
Definition update (eventId : value) (ev : Event) (c : Service)
  : option (string * Service) :=
  match eventId with
  | VStr id =>
      if online c && bool_decide (is_Some (events c !! id)) then
        Some (id, {| online := online c; events := <[id := ev]> (events c) |})
      else None
  | _ => None
  end.

(** [events.delete]: rejects when unreachable or when the event is gone. *)
Definition delete (eventId : value) (c : Service) : option Service :=
  match eventId with
  | VStr id =>
      if online c && bool_decide (is_Some (events c !! id)) then
        Some {| online := online c; events := base.delete id (events c) |}
      else None
  | _ => None
  end.

End Calendar.

(* ===================================================================== *)
(** * The world a handler runs in                                         *)
(* ===================================================================== *)

(** Calls that leave the process, in the order they are issued.  A
    provider call is recorded whether or not it succeeds. *)
Inductive Effect :=
  | DocWrite (p : path)
  | DocDelete (p : path)
  | GetToken (code : value)
  | EventsInsert (ev : Calendar.Event)
  | EventsUpdate (eventId : value) (ev : Calendar.Event)
  | EventsDelete (eventId : value).

Record World := {
  db : database;
  (** [oauth2Client]: the one client of the process, its current
      credentials and the ['tokens'] listeners registered on it, each the
      closure of [calendarClientFor] over [uid] and [data]. *)
  credentials : value;
  listeners : list (string * value);
  calendar : Calendar.Service;
  trace : list Effect;
  clock : Z;
}.

Definition with_db (f : database → database) (w : World) : World :=
  {| db := f (db w); credentials := credentials w; listeners := listeners w;
     calendar := calendar w; trace := trace w; clock := clock w |}.

Definition with_calendar (c : Calendar.Service) (w : World) : World :=
  {| db := db w; credentials := credentials w; listeners := listeners w;
     calendar := c; trace := trace w; clock := clock w |}.

Definition log (e : Effect) (w : World) : World :=
  {| db := db w; credentials := credentials w; listeners := listeners w;
     calendar := calendar w; trace := trace w ++ [e]; clock := clock w |}.

Inductive Error :=
  | TypeError
  | SyntaxError
  | NotFound
  | OAuthExchangeFailed
  | CalendarProviderError.

Inductive Outcome (A : Type) :=
  | Returned (a : A)
  | Threw (e : Error).
Arguments Returned {A} a.
Arguments Threw {A} e.

(** State and exceptions; the state survives a throw. *)
Definition M (A : Type) : Type := World → World * Outcome A.

Definition ret {A} (a : A) : M A := λ w, (w, Returned a).
Definition throw {A} (e : Error) : M A := λ w, (w, Threw e).
Definition bind {A B} (c : M A) (k : A → M B) : M B :=
  λ w, match c w with
       | (w', Returned a) => k a w'
       | (w', Threw e) => (w', Threw e)
       end.
(** [try { c } catch { h }] *)
Definition try_catch {A} (c : M A) (h : Error → M A) : M A :=
  λ w, match c w with
       | (w', Returned a) => (w', Returned a)
       | (w', Threw e) => h e w'
       end.

Notation "'let*' x ':=' c 'in' k" := (bind c (λ x, k))
  (at level 10, x pattern, c at level 100, k at level 200).
Notation "c ';;' k" := (bind c (λ _, k))
  (at level 100, k at level 200, right associativity).

Definition get_world : M World := λ w, (w, Returned w).
Definition modify (f : World → World) : M unit := λ w, (f w, Returned tt).

(** Time passes. *)
Definition tick (w : World) : World :=
  {| db := db w; credentials := credentials w; listeners := listeners w;
     calendar := calendar w; trace := trace w; clock := clock w + 1 |}.

(** [new Date()] *)
Definition new_Date : M value := λ w, (tick w, Returned (VDate (clock w))).

(** ** Document operations *)

(** [(await ref.get()).data()] *)
Definition doc_get (p : path) : M value :=
  λ w, (w, Returned (match db w !! p with Some d => VObj d | None => VUndef end)).

Definition doc_set_merge (p : path) (data : obj) : M unit :=
  modify (λ w, log (DocWrite p) (with_db (set_merge p data) w)).

Definition doc_update (p : path) (data : obj) : M unit :=
  λ w, match db w !! p with
       | Some old =>
           (log (DocWrite p) (with_db (insert p (update_fields old data)) w),
            Returned tt)
       | None => (w, Threw NotFound)
       end.

Definition doc_delete (p : path) : M unit :=
  modify (λ w, log (DocDelete p) (with_db (delete p) w)).

(** [db.collection('users').doc(uid).collection('tasks').add(data)]: the
    new document's id. *)
Definition tasks_add (uid : string) (data : obj) : M string :=
  λ w, let id := auto_id (db w) in
       (log (DocWrite (taskRef uid id)) (with_db (insert (taskRef uid id) data) w),
        Returned id).

(** ** Provider calls through the calendar client *)

Definition events_insert (ev : Calendar.Event) : M value :=
  λ w, let w := log (EventsInsert ev) w in
       match Calendar.insert ev (calendar w) with
       | Some (id, c) => (with_calendar c w, Returned (VStr id))
       | None => (w, Threw CalendarProviderError)
       end.

Definition events_update (eventId : value) (ev : Calendar.Event) : M value :=
  λ w, let w := log (EventsUpdate eventId ev) w in
       match Calendar.update eventId ev (calendar w) with
       | Some (id, c) => (with_calendar c w, Returned (VStr id))
       | None => (w, Threw CalendarProviderError)
       end.

Definition events_delete (eventId : value) : M unit :=
  λ w, let w := log (EventsDelete eventId) w in
       match Calendar.delete eventId (calendar w) with
       | Some c => (with_calendar c w, Returned tt)
       | None => (w, Threw CalendarProviderError)
       end.

(* ===================================================================== *)
(** * Code of other packages                                              *)
(* ===================================================================== *)

(** What the server imports and this development does not look into. *)
Record Externals := {
  (** [adminAuth.verifyIdToken(token)]: the [uid] of the decoded token, or
      [None] when the token is rejected. *)
  verifyIdToken : string → option string;
  (** [JSON.parse(text)], [None] for a [SyntaxError]. *)
  JSON_parse : string → option value;
  (** [oauth2Client.getToken(code)]: the [tokens] of the answer, or [None]
      when the provider rejects the code. *)
  getToken : value → option value;
  (** luxon: the instant denoted by an ISO text read in a zone, [None]
      when the text or the zone is invalid; and the name luxon gives to a
      zone specifier. *)
  iso_instant : value → value → option Z;
  zone_name : value → value;
  (** [process.env.POST_OAUTH_REDIRECT] *)
  POST_OAUTH_REDIRECT : value;
}.

Module Luxon.

Record DateTime := { ts : option Z; zoneName : value }.

(** [DateTime.fromISO(text, { zone })]: an invalid DateTime has no
    instant and a [null] zone name. *)
Definition fromISO (X : Externals) (text zone : value) : DateTime :=
  match iso_instant X text zone with
  | Some t => {| ts := Some t; zoneName := zone_name X zone |}
  | None => {| ts := None; zoneName := VNull |}
  end.

(** [dt.plus({ minutes: n })] *)
Definition plus_minutes (dt : DateTime) (n : Z) : DateTime :=
  {| ts := (λ t, t + n * 60000) <$> ts dt; zoneName := zoneName dt |}.

(** [dt.toISO()] *)
Definition toISO (dt : DateTime) : option Z := ts dt.

End Luxon.

(* ===================================================================== *)
(** * server.js                                                           *)
(* ===================================================================== *)

Inductive Body :=
  | Json (v : value)
  | Text (s : string)
  (** the script that notifies the opener and navigates to [returnTo] *)
  | OpenerScript (returnTo : value).

Record Response := { status : Z; content : Body }.

(** [res.status(n).json(v)] and friends *)
Definition respond (n : Z) (b : Body) : Response := {| status := n; content := b |}.

(** [google.calendar({ version: 'v3', auth: oauth2Client })] *)
Variant CalendarClient := GoogleCalendar.

(** [o.k] for an object [o] *)
Definition field (o : obj) (k : string) : value := default VUndef (o !! k).

(** [v.k] where [v] may be [null] or [undefined] *)
Definition member (v : value) (k : string) : M value :=
  match v with
  | VUndef | VNull => throw TypeError
  | _ => ret (prop v k)
  end.

(** [oauth2Client.setCredentials(tokens)] *)
Definition setCredentials (tokens : value) : M unit :=
  modify (λ w, {| db := db w; credentials := tokens; listeners := listeners w;
                  calendar := calendar w; trace := trace w; clock := clock w |}).

(** [oauth2Client.on('tokens', listener)], the listener being the closure
    of [calendarClientFor] over [uid] and [data] *)
Definition on_tokens (uid : string) (data : value) : M unit :=
  modify (λ w, {| db := db w; credentials := credentials w;
                  listeners := listeners w ++ [(uid, data)];
                  calendar := calendar w; trace := trace w; clock := clock w |}).

(** The listener of [calendarClientFor], lines 103-107. *)
Definition tokens_listener (uid : string) (data : value) (tokens : value) : M unit :=
  let* refresh_token := member tokens "refresh_token" in
  let* access_token := member tokens "access_token" in
  if truthy refresh_token || truthy access_token then
    doc_set_merge (userTokensRef uid)
      {[ "tokens" := VObj (spread tokens ∪ spread (prop data "tokens")) ]}
  else ret tt.

(** [oauth2Client.emit('tokens', tokens)], which the provider library does
    when it has refreshed the access token: every registered listener
    runs, in registration order; a listener that rejects stops alone. *)
Definition emit_tokens (tokens : value) : M unit :=
  let* w := get_world in
  foldr (λ l k, try_catch (tokens_listener l.1 l.2 tokens) (λ _, ret tt) ;; k)
        (ret tt) (listeners w).

Definition calendarClientFor (uid : string) : M (option CalendarClient) :=
  let* data := doc_get (userTokensRef uid) in
  if negb (truthy (prop (prop data "tokens") "refresh_token"))
     && negb (truthy (prop (prop data "tokens") "access_token"))
  then ret None
  else
    setCredentials (prop data "tokens") ;;
    on_tokens uid data ;;
    ret (Some GoogleCalendar).

Section Server.

Context (X : Externals).

(** ** Auth middleware *)

Definition requireAuth (authorization : option string) (next : string → M Response)
  : M Response :=
  let header := default "" authorization in
  let token := if String.prefix "Bearer " header
               then Some (String.substring 7 (String.length header - 7) header)
               else None in
  match token with
  | None | Some "" =>
      ret (respond 401 (Json (VObj {[ "error" := VStr "Missing Authorization header" ]})))
  | Some token =>
      match verifyIdToken X token with
      | Some uid => next uid
      | None =>
          ret (respond 401 (Json (VObj {[ "error" := VStr "Invalid or expired ID token" ]})))
      end
  end.

(** ** OAuth callback *)

(** [state ? JSON.parse(state) : {}], [None] when [JSON.parse] throws *)
Definition parse_state (state : option string) : option value :=
  match state with
  | None | Some "" => Some (VObj ∅)
  | Some s => JSON_parse X s
  end.

Definition oauth2callback (code : value) (state : option string) : M Response :=
  try_catch
    (let* parsed :=
       match parse_state state with
       | Some v => ret v
       | None => throw SyntaxError
       end in
     let* tokens :=
       modify (log (GetToken code)) ;;
       match getToken X code with
       | Some tokens => ret tokens
       | None => throw OAuthExchangeFailed
       end in
     let* uid := member parsed "uid" in
     if negb (truthy uid) then ret (respond 400 (Text "Missing user context."))
     else
       match uid with
       | VStr uid =>
           doc_set_merge (userTokensRef uid) {[ "tokens" := tokens ]} ;;
           let returnTo := or (prop parsed "returnTo") (or (POST_OAUTH_REDIRECT X) (VStr "/")) in
           ret (respond 200 (OpenerScript returnTo))
       | _ => throw TypeError
       end)
    (λ _, ret (respond 500 (Text "OAuth error"))).

(** ** Helper: create/update a Google Calendar event *)

Definition event_of (task : value) : Calendar.Event :=
  let start := Luxon.fromISO X (prop task "dueDateTime")
                 (or (prop task "timezone") (VStr "Africa/Lagos")) in
  let end_ := Luxon.plus_minutes start 30 in
  {| Calendar.summary := prop task "title";
     Calendar.description := or (prop task "description") (VStr "");
     Calendar.start := {| Calendar.dateTime := Luxon.toISO start;
                          Calendar.timeZone := Luxon.zoneName start |};
     Calendar.end_ := {| Calendar.dateTime := Luxon.toISO end_;
                         Calendar.timeZone := Luxon.zoneName end_ |} |}.

Definition upsertCalendarEvent (uid : string) (task : value) : M value :=
  let* cal := calendarClientFor uid in
  match cal with
  | None => ret VNull
  | Some _ =>
      let event := event_of task in
      if truthy (prop task "calendarEventId") then
        events_update (prop task "calendarEventId") event
      else
        events_insert event
  end.

(** ** Tasks CRUD *)

(** The document written by [add] (lines 140-153), for a request body and
    the date read at line 135. *)
Definition new_task (body : obj) (now : value) : obj :=
  {[ "title" := field body "title";
     "description" := or (field body "description") (VStr "");
     "dueDateTime" := or (field body "dueDateTime") VNull;
     "priority" := field_or body "priority" (VStr "medium");
     "category" := field_or body "category" (VStr "other");
     "tags" := field_or body "tags" (VArr []);
     "reminder" := field_or body "reminder" (VStr "none");
     "calendarSync" := field_or body "calendarSync" (VBool false);
     "timezone" := field_or body "timezone" (VStr "Africa/Lagos");
     "completed" := VBool false;
     "createdAt" := now;
     "updatedAt" := now ]}.

(** The object handed to [upsertCalendarEvent] (lines 158-163). *)
Definition synced_task (id : string) (body : obj) : value :=
  VObj {[ "id" := VStr id;
          "title" := field body "title";
          "description" := field body "description";
          "dueDateTime" := field body "dueDateTime";
          "timezone" := field_or body "timezone" (VStr "Africa/Lagos") ]}.

Definition post_tasks (uid : string) (body : obj) : M Response :=
  let title := field body "title" in
  let dueDateTime := field body "dueDateTime" in
  let calendarSync := field_or body "calendarSync" (VBool false) in
  if negb (truthy title) then
    ret (respond 400 (Json (VObj {[ "error" := VStr "title is required" ]})))
  else
    let* now := new_Date in
    let* id := tasks_add uid (new_task body now) in
    let ref := taskRef uid id in
    (if truthy calendarSync && truthy dueDateTime then
       let* calendarEventId := upsertCalendarEvent uid (synced_task id body) in
       let* now := new_Date in
       doc_update ref {[ "calendarEventId" := calendarEventId; "updatedAt" := now ]}
     else ret tt) ;;
    let* created := doc_get ref in
    ret (respond 201 (Json (VObj (spread created ∪ {[ "id" := VStr id ]})))).

Definition patch_task (uid id : string) (body : obj) : M Response :=
  let* now := new_Date in
  let payload := <["updatedAt" := now]> body in
  let ref := taskRef uid id in
  doc_set_merge ref payload ;;
  (if (truthy (field payload "calendarSync") || truthy (field payload "dueDateTime"))
      && not_false (field payload "calendarSync") then
     let* snap := doc_get ref in
     let task := VObj (spread snap ∪ {[ "id" := VStr id ]}) in
     if truthy (prop task "dueDateTime") then
       let* eventId := upsertCalendarEvent uid task in
       let* now := new_Date in
       doc_update ref {[ "calendarEventId" := eventId; "updatedAt" := now ]}
     else ret tt
   else ret tt) ;;
  let* updated := doc_get ref in
  ret (respond 200 (Json (VObj (spread updated ∪ {[ "id" := VStr id ]})))).

Definition delete_task (uid id : string) : M Response :=
  let ref := taskRef uid id in
  let* task := doc_get ref in
  (if truthy (prop task "calendarEventId") then
     let* cal := calendarClientFor uid in
     match cal with
     | Some _ =>
         try_catch (events_delete (prop task "calendarEventId")) (λ _, ret tt)
     | None => ret tt
     end
   else ret tt) ;;
  doc_delete ref ;;
  ret (respond 200 (Json (VObj {[ "ok" := VBool true ]}))).

(** ** The routes, behind the middleware *)

Definition POST_tasks (authorization : option string) (body : obj) : M Response :=
  requireAuth authorization (λ uid, post_tasks uid body).

Definition PATCH_tasks (authorization : option string) (id : string) (body : obj)
  : M Response :=
  requireAuth authorization (λ uid, patch_task uid id body).

Definition DELETE_tasks (authorization : option string) (id : string) : M Response :=
  requireAuth authorization (λ uid, delete_task uid id).

End Server.

(** Whether [calendarClientFor] finds usable credentials for the user:
    the guard of line 100. *)
Definition connected (uid : string) (w : World) : bool :=
  let data := match db w !! userTokensRef uid with
              | Some d => VObj d
              | None => VUndef
              end in
  truthy (prop (prop data "tokens") "refresh_token")
  || truthy (prop (prop data "tokens") "access_token").


(** [k] in the document at [p], [undefined] when either is missing. *)
Definition stored_field (w : World) (p : path) (k : string) : value :=
  prop (match db w !! p with Some d => VObj d | None => VUndef end) k.

(** [k] in the JSON object a response carries. *)
Definition response_field (r : Response) (k : string) : value :=
  match content r with
  | Json v => prop v k
  | _ => VUndef
  end.

(** The provider calls of a trace. *)
Definition is_provider_call (e : Effect) : bool :=
  match e with
  | EventsInsert _ | EventsUpdate _ _ | EventsDelete _ => true
  | _ => false
  end.

Definition provider_calls (t : list Effect) : list Effect :=
  List.filter is_provider_call t.

(** The world [calendarClientFor] leaves behind for a connected user: the
    shared client carries the user's tokens and one more listener. *)
Definition bound (uid : string) (w : World) : World :=
  let data := match db w !! userTokensRef uid with
              | Some d => VObj d
              | None => VUndef
              end in
  {| db := db w; credentials := prop data "tokens";
     listeners := listeners w ++ [(uid, data)];
     calendar := calendar w; trace := trace w; clock := clock w |}.

(** A measure for induction on values. *)
Fixpoint value_size (v : value) : nat :=
  match v with
  | VObj m => S (map_fold (λ _ v acc, value_size v + acc)%nat 0%nat m)
  | VArr l => S (foldr (λ v acc, value_size v + acc)%nat 0%nat l)
  | _ => 1%nat
  end.

(** The answer of DELETE /tasks/:id. *)
Definition ok_response : Response :=
  respond 200 (Json (VObj {[ "ok" := VBool true ]})).



(** The answers of the OAuth callback. *)
Definition oauth_error : Response := respond 500 (Text "OAuth error").

(* ===================================================================== *)
(** * Sample collaborators and worlds                                     *)
(* ===================================================================== *)

Module Sample.

(** A stand-in for the imported packages: one valid ID token, one valid
    authorization code, one state text that parses to the state of user
    [u1] (written without its quotes) and one that parses to [null], and
    one ISO text with its instant. *)
Definition X : Externals := {|
  verifyIdToken := λ t, if String.eqb t "id-token-u1" then Some "u1" else None;
  JSON_parse := λ s, if String.eqb s "{uid:u1}"
                     then Some (VObj {[ "uid" := VStr "u1" ]})
                     else if String.eqb s "null" then Some VNull
                     else None;
  getToken := λ c, match c with
                   | VStr "good-code" =>
                       Some (VObj {[ "access_token" := VStr "A";
                                     "refresh_token" := VStr "R" ]})
                   | _ => None
                   end;
  iso_instant := λ text zone, match text with
                              | VStr "2025-01-01T09:00" => Some 1735718400000
                              | _ => None
                              end;
  zone_name := λ z, z;
  POST_OAUTH_REDIRECT := VUndef;
|}.

Definition no_events : Calendar.Service :=
  {| Calendar.online := true; Calendar.events := ∅ |}.

(** Nobody has connected a calendar; no task exists. *)
Definition empty : World :=
  {| db := ∅; credentials := VUndef; listeners := []; calendar := no_events;
     trace := []; clock := 0 |}.

Definition secrets_u1 : obj :=
  {[ "tokens" := VObj {[ "access_token" := VStr "A"; "refresh_token" := VStr "R" ]} ]}.

(** User [u1] has connected a calendar. *)
Definition linked : World :=
  {| db := {[ userTokensRef "u1" := secrets_u1 ]}; credentials := VUndef;
     listeners := []; calendar := no_events; trace := []; clock := 0 |}.

(** The same, with the provider out of reach. *)
Definition linked_offline : World :=
  with_calendar {| Calendar.online := false; Calendar.events := ∅ |} linked.

Definition an_event : Calendar.Event :=
  {| Calendar.summary := VStr "Pay rent"; Calendar.description := VStr "";
     Calendar.start := {| Calendar.dateTime := Some 1735718400000;
                          Calendar.timeZone := VStr "Africa/Lagos" |};
     Calendar.end_ := {| Calendar.dateTime := Some 1735720200000;
                         Calendar.timeZone := VStr "Africa/Lagos" |} |}.

(** A task whose sync was switched off after its event [evt0] was made:
    the record keeps the event id. *)
Definition unsynced_task : obj :=
  {[ "title" := VStr "Pay rent"; "description" := VStr "";
     "dueDateTime" := VNull; "calendarSync" := VBool false;
     "timezone" := VStr "Africa/Lagos"; "calendarEventId" := VStr "evt0" ]}.

Definition with_unsynced_task : World :=
  {| db := {[ userTokensRef "u1" := secrets_u1;
              taskRef "u1" "t1" := unsynced_task ]};
     credentials := VUndef; listeners := [];
     calendar := {| Calendar.online := true;
                    Calendar.events := {[ "evt0" := an_event ]} |};
     trace := []; clock := 0 |}.

(** The same, with the provider out of reach. *)
Definition with_unsynced_task_offline : World :=
  with_calendar {| Calendar.online := false;
                   Calendar.events := {[ "evt0" := an_event ]} |}
    with_unsynced_task.

(** The same task, owned by a user without stored credentials. *)
Definition orphan_task : World :=
  {| db := {[ taskRef "u2" "t1" := unsynced_task ]};
     credentials := VUndef; listeners := [];
     calendar := {| Calendar.online := true;
                    Calendar.events := {[ "evt0" := an_event ]} |};
     trace := []; clock := 0 |}.

Definition sync_body : obj :=
  {[ "title" := VStr "Pay rent"; "calendarSync" := VBool true;
     "dueDateTime" := VStr "2025-01-01T09:00" ]}.

(** A request that moves a task to a date. *)
Definition due_body : obj :=
  {[ "title" := VStr "Pay rent"; "dueDateTime" := VStr "2025-01-01T09:00" ]}.

(** A request that asks for no sync. *)
Definition unsync_body : obj :=
  {[ "title" := VStr "Pay rent"; "calendarSync" := VBool false ]}.

End Sample.

(* ===================================================================== *)
(** * GET /tasks                                                          *)
(* ===================================================================== *)

(** The documents of the collection [users/<uid>/tasks], with their ids. *)
Definition tasks_of (uid : string) (db : database) : list (string * obj) :=
  omap (λ pd : path * obj,
          match pd.1 with
          | [_; _; _; id] =>
              if decide (pd.1 = taskRef uid id) then Some (id, pd.2) else None
          | _ => None
          end)
       (map_to_list db).

(** One step of an insertion sort along [precedes]. *)
Fixpoint place {A} (precedes : A → A → bool) (x : A) (l : list A) : list A :=
  match l with
  | [] => [x]
  | y :: l' => if precedes x y then x :: l else y :: place precedes x l'
  end.

(** [col.orderBy(f, 'desc').get()]: Firestore leaves out the documents
    that have no field [f] and returns the others in its order, which is
    taken as the parameter [precedes] (whether a document comes before
    another one in the result). *)
Definition orderBy_desc (precedes : string * obj → string * obj → bool)
    (f : string) (docs : list (string * obj)) : list (string * obj) :=
  foldr (place precedes) [] (filter (λ d, is_Some (d.2 !! f)) docs).

(** [{ id: d.id, ...d.data() }] *)
Definition task_json (d : string * obj) : value :=
  VObj (d.2 ∪ {[ "id" := VStr d.1 ]}).

(** The handler of GET /tasks, lines 113-118. *)
Definition get_tasks (precedes : string * obj → string * obj → bool)
    (uid : string) : M Response :=
  let* w := get_world in
  let docs := orderBy_desc precedes "createdAt" (tasks_of uid (db w)) in
  ret (respond 200 (Json (VObj {[ "tasks" := VArr (task_json <$> docs) ]}))).

Definition GET_tasks (X : Externals)
    (precedes : string * obj → string * obj → bool)
    (authorization : option string) : M Response :=
  requireAuth X authorization (get_tasks precedes).

(** The tasks a response of GET /tasks lists. *)
Definition listed (r : Response) : list value :=
  match response_field r "tasks" with
  | VArr l => l
  | _ => []
  end.

(** [n] calls of [calendarClientFor] for one user, one after the other. *)
Definition resolve_times (n : nat) (uid : string) (w : World) : World :=
  Nat.iter n (λ w, (calendarClientFor uid w).1) w.

(** The access token stored for a user, [undefined] when there is none. *)
Definition stored_access_token (uid : string) (w : World) : value :=
  prop (stored_field w (userTokensRef uid) "tokens") "access_token".

(** The refresh token stored for a user. *)
Definition stored_refresh_token (uid : string) (w : World) : value :=
  prop (stored_field w (userTokensRef uid) "tokens") "refresh_token".


(** The two refusals of the auth middleware. *)
Definition missing_header : Response :=
  respond 401 (Json (VObj {[ "error" := VStr "Missing Authorization header" ]})).
Definition invalid_token : Response :=
  respond 401 (Json (VObj {[ "error" := VStr "Invalid or expired ID token" ]})).

(** The listeners of a list, run in order as [emit_tokens] does. *)
Definition run_listeners (tokens : value) (ls : list (string * value)) : M unit :=
  foldr (λ l k, try_catch (tokens_listener l.1 l.2 tokens) (λ _, ret tt) ;; k)
        (ret tt) ls.

(* ===================================================================== *)
(** * More sample worlds                                                  *)
(* ===================================================================== *)

Module Fixture.

(** An order for query results: later dates first. *)
Definition newest_first (a b : string * obj) : bool :=
  match field a.2 "createdAt", field b.2 "createdAt" with
  | VDate s, VDate t => Z.leb t s
  | _, _ => true
  end.

Definition secrets_u2 : obj :=
  {[ "tokens" := VObj {[ "access_token" := VStr "A2"; "refresh_token" := VStr "R2" ]} ]}.

(** Two users have connected a calendar. *)
Definition two_linked : World :=
  {| db := {[ userTokensRef "u1" := Sample.secrets_u1;
              userTokensRef "u2" := secrets_u2 ]};
     credentials := VUndef; listeners := []; calendar := Sample.no_events;
     trace := []; clock := 0 |}.

(** A task that carries the id of an event the provider no longer has. *)
Definition stale_task : obj :=
  {[ "title" := VStr "Pay rent"; "dueDateTime" := VStr "2025-01-01T09:00";
     "calendarSync" := VBool true; "calendarEventId" := VStr "gone" ]}.

Definition with_stale_task : World :=
  {| db := {[ userTokensRef "u1" := Sample.secrets_u1;
              taskRef "u1" "t1" := stale_task ]};
     credentials := VUndef; listeners := []; calendar := Sample.no_events;
     trace := []; clock := 0 |}.


(** A request whose dueDateTime luxon cannot read. *)
Definition bad_date_body : obj :=
  {[ "title" := VStr "Pay rent"; "calendarSync" := VBool true;
     "dueDateTime" := VStr "tomorrow" ]}.


(** User [u1] has connected again since a listener captured
    [Sample.secrets_u1]: the store holds newer tokens. *)
Definition relinked : World :=
  {| db := {[ userTokensRef "u1" := secrets_u2 ]};
     credentials := VUndef; listeners := []; calendar := Sample.no_events;
     trace := []; clock := 0 |}.

(** Both users of [two_linked] have had a calendar client made, [u1]
    first. *)
Definition two_sessions : World :=
  (calendarClientFor "u2" (calendarClientFor "u1" two_linked).1).1.

End Fixture.

(* ===================================================================== *)
(** * Basic facts                                                         *)
(* ===================================================================== *)


Lemma calendarClientFor_not_connected uid w :
  connected uid w = false →
  calendarClientFor uid w = (w, Returned None).
Proof.
  unfold connected, calendarClientFor, bind, doc_get. intros H.
  apply orb_false_iff in H as [-> ->]. reflexivity.
Qed.

Lemma calendarClientFor_connected uid w :
  connected uid w = true →
  calendarClientFor uid w = (bound uid w, Returned (Some GoogleCalendar)).
Proof.
  unfold connected, calendarClientFor, bind, doc_get. intros H.
  rewrite <- negb_orb, H. reflexivity.
Qed.

Section Facts.

Context (X : Externals).

Lemma upsert_not_connected uid task w :
  connected uid w = false →
  upsertCalendarEvent X uid task w = (w, Returned VNull).
Proof.
  intros H. unfold upsertCalendarEvent, bind.
  rewrite calendarClientFor_not_connected by done. reflexivity.
Qed.

Lemma upsert_connected uid task w :
  connected uid w = true →
  upsertCalendarEvent X uid task w =
    (if truthy (prop task "calendarEventId")
     then events_update (prop task "calendarEventId") (event_of X task)
     else events_insert (event_of X task)) (bound uid w).
Proof.
  intros H. unfold upsertCalendarEvent, bind.
  rewrite calendarClientFor_connected by done.
  destruct (truthy (prop task "calendarEventId")); reflexivity.
Qed.

(** [upsertCalendarEvent] never writes to the database and never moves
    the clock. *)
Lemma upsert_db uid task w :
  db (upsertCalendarEvent X uid task w).1 = db w
  ∧ clock (upsertCalendarEvent X uid task w).1 = clock w.
Proof.
  destruct (connected uid w) eqn:Hc.
  - rewrite upsert_connected by done.
    destruct (truthy _); unfold events_update, events_insert; cbn;
      repeat case_match; done.
  - rewrite upsert_not_connected by done. done.
Qed.

(** ** C8 *)

Lemma post_tasks_falsy_title uid body w :
  truthy (field body "title") = false →
  post_tasks X uid body w
  = (w, Returned (respond 400 (Json (VObj {[ "error" := VStr "title is required" ]})))).
Proof. intros H. unfold post_tasks. rewrite H. reflexivity. Qed.

(** C8. A POST /tasks whose body has no title answers 400 and leaves the
    world as it was: no task record is written and no call reaches the
    calendar provider. *)
Theorem post_without_title_is_rejected uid body w :
  body !! "title" = None →
  post_tasks X uid body w
  = (w, Returned (respond 400 (Json (VObj {[ "error" := VStr "title is required" ]})))).
Proof.
  intros H. apply post_tasks_falsy_title. unfold field. rewrite H. reflexivity.
Qed.

(** ** C6 *)

(** C6. When the user's credential record is absent, or holds neither a
    refresh token nor an access token, [calendarClientFor] returns [null]
    and [upsertCalendarEvent] returns [null]; neither throws, and the
    world, task records included, is left as it was. *)
Theorem not_connected_is_not_an_error uid w :
  (db w !! userTokensRef uid = None
   ∨ ∃ d, db w !! userTokensRef uid = Some d
          ∧ truthy (prop (field d "tokens") "refresh_token") = false
          ∧ truthy (prop (field d "tokens") "access_token") = false) →
  calendarClientFor uid w = (w, Returned None)
  ∧ ∀ task, upsertCalendarEvent X uid task w = (w, Returned VNull).
Proof.
  intros H.
  assert (Hc : connected uid w = false).
  { unfold connected. destruct H as [-> | (d & -> & Hr & Ha)]; [done|].
    unfold field in Hr, Ha. cbn. rewrite Hr, Ha. done. }
  split; [by apply calendarClientFor_not_connected|].
  intros task. by apply upsert_not_connected.
Qed.

End Facts.

Lemma post_without_title_is_rejected_witness :
  post_tasks Sample.X "u1" ∅ Sample.linked
  = (Sample.linked,
     Returned (respond 400 (Json (VObj {[ "error" := VStr "title is required" ]})))).
Proof. apply (post_without_title_is_rejected Sample.X "u1" ∅ Sample.linked). reflexivity. Defined.

Lemma not_connected_is_not_an_error_witness :
  calendarClientFor "u1" Sample.empty = (Sample.empty, Returned None)
  ∧ ∀ task, upsertCalendarEvent Sample.X "u1" task Sample.empty
            = (Sample.empty, Returned VNull).
Proof.
  apply (not_connected_is_not_an_error Sample.X "u1" Sample.empty).
  left. reflexivity.
Defined.


Lemma value_size_field (m : obj) k v :
  m !! k = Some v → (value_size v < value_size (VObj m))%nat.
Proof.
  intros H. cbn [value_size].
  rewrite <- (insert_id m k v H), <- insert_delete_eq.
  rewrite map_fold_insert_L.
  - lia.
  - intros. lia.
  - apply lookup_delete_eq.
Qed.

Lemma merge_value_idem v : merge_value v v = v.
Proof.
  remember (value_size v) as n eqn:Hn.
  revert v Hn. induction (lt_wf n) as [n _ IH]. intros v ->.
  destruct v as [| | | | | | |m]; try reflexivity.
  cbn [merge_value]. case_decide; [done|]. f_equal.
  apply map_eq. intros k. rewrite lookup_union_with.
  destruct (m !! k) as [t|] eqn:Hk; cbn; [|done].
  f_equal. eapply IH; [|reflexivity]. by eapply value_size_field.
Qed.

Lemma merge_fields_lookup (old new : obj) k :
  merge_fields old new !! k
  = match old !! k, new !! k with
    | Some o, Some n => Some (merge_value o n)
    | Some o, None => Some o
    | None, n => n
    end.
Proof.
  unfold merge_fields. rewrite lookup_union_with.
  destruct (old !! k), (new !! k); reflexivity.
Qed.


Lemma tokens_listener_access_token uid (d T : obj) B w :
  B ≠ "" →
  db w !! userTokensRef uid = Some d →
  d !! "tokens" = Some (VObj T) →
  tokens_listener uid (VObj d) (VObj {[ "access_token" := VStr B ]}) w
  = (log (DocWrite (userTokensRef uid))
       (with_db (insert (userTokensRef uid)
                   (<["tokens" := VObj (<["access_token" := VStr B]> T)]> d)) w),
     Returned tt).
Proof.
  intros HB Hd HT. unfold tokens_listener, member, bind, ret. cbn.
  rewrite lookup_singleton_ne by done. rewrite lookup_singleton_eq, HT. cbn.
  destruct (String.eqb_spec B "") as [|_]; [done|]. cbn.
  unfold doc_set_merge, modify, set_merge, with_db, log. cbn. rewrite Hd. cbn.
  do 3 f_equal.
  apply map_eq. intros k. rewrite merge_fields_lookup.
  destruct (decide (k = "tokens")) as [->|Hk].
  - rewrite HT, lookup_insert_eq, lookup_singleton_eq. cbn.
    case_decide as He.
    { exfalso. apply (f_equal (lookup "access_token")) in He.
      rewrite lookup_union_l', lookup_singleton_eq in He; [done|].
      by rewrite lookup_singleton_eq. }
    do 2 f_equal. apply map_eq. intros j. rewrite lookup_union_with.
    destruct (decide (j = "access_token")) as [->|Hj].
    + rewrite lookup_insert_eq, lookup_union_l', lookup_singleton_eq;
        [|by rewrite lookup_singleton_eq].
      destruct (T !! "access_token") as [[]|]; reflexivity.
    + rewrite lookup_insert_ne, lookup_union_r by (by rewrite ?lookup_singleton_ne).
      destruct (T !! j); cbn; [|done]. by rewrite merge_value_idem.
  - rewrite lookup_insert_ne, lookup_singleton_ne by done.
    by destruct (d !! k).
Qed.

(** The guard of line 104: a notification without a usable token writes
    nothing. *)
Lemma tokens_listener_without_token uid data w :
  tokens_listener uid data (VObj {[ "access_token" := VStr "" ]}) w = (w, Returned tt).
Proof. reflexivity. Qed.



(** ** DELETE /tasks/:id *)


Lemma delete_task_run uid id w :
  let task := match db w !! taskRef uid id with
              | Some d => VObj d
              | None => VUndef
              end in
  let eid := prop task "calendarEventId" in
  ∃ w',
    delete_task uid id w = (w', Returned ok_response)
    ∧ db w' = delete (taskRef uid id) (db w)
    ∧ trace w' = trace w
                 ++ (if truthy eid && connected uid w then [EventsDelete eid] else [])
                 ++ [DocDelete (taskRef uid id)]
    ∧ calendar w' = (if truthy eid && connected uid w
                     then default (calendar w) (Calendar.delete eid (calendar w))
                     else calendar w).
Proof.
  intros task eid. unfold delete_task, bind at 1. cbn [doc_get].
  fold task. fold eid. unfold bind at 1.
  destruct (truthy eid) eqn:He; cbn [andb].
  - unfold bind at 1. destruct (connected uid w) eqn:Hc.
    + rewrite calendarClientFor_connected by done.
      unfold try_catch, events_delete. cbn.
      destruct (Calendar.delete eid (calendar w)) as [c|]; cbn;
        (eexists; split; [reflexivity|]); cbn; rewrite <- ?app_assoc; done.
    + rewrite calendarClientFor_not_connected by done. cbn.
      eexists; split; [reflexivity|]. done.
  - cbn. eexists; split; [reflexivity|]. done.
Qed.

(** C5, as amended. For a task record that carries a calendarEventId,
    DELETE /tasks/:id answers {ok: true} and removes the record whatever
    the provider does; when the user has stored credentials the remote
    deletion is attempted first, exactly once, and its failure is
    swallowed; when the user has none, no remote deletion is attempted. *)
Theorem delete_is_best_effort uid id d w :
  db w !! taskRef uid id = Some d →
  truthy (field d "calendarEventId") = true →
  ∃ w',
    delete_task uid id w = (w', Returned ok_response)
    ∧ db w' !! taskRef uid id = None
    ∧ (connected uid w = true →
       trace w' = trace w ++ [EventsDelete (field d "calendarEventId");
                              DocDelete (taskRef uid id)])
    ∧ (connected uid w = false →
       trace w' = trace w ++ [DocDelete (taskRef uid id)]).
Proof.
  intros Hd He.
  destruct (delete_task_run uid id w) as (w' & Hrun & Hdb & Htr & _).
  rewrite Hd in Htr. cbn [prop] in Htr. fold (field d "calendarEventId") in Htr.
  rewrite He in Htr. exists w'. split; [done|]. split.
  - rewrite Hdb. apply lookup_delete_eq.
  - split; intros Hc; rewrite Hc in Htr; exact Htr.
Qed.

Lemma delete_is_best_effort_witness :
  (db Sample.with_unsynced_task !! taskRef "u1" "t1" = Some Sample.unsynced_task
   ∧ truthy (field Sample.unsynced_task "calendarEventId") = true)
  ∧ ∃ w',
    delete_task "u1" "t1" Sample.with_unsynced_task = (w', Returned ok_response)
    ∧ db w' !! taskRef "u1" "t1" = None
    ∧ (connected "u1" Sample.with_unsynced_task = true →
       trace w' = trace Sample.with_unsynced_task
                  ++ [EventsDelete (field Sample.unsynced_task "calendarEventId");
                      DocDelete (taskRef "u1" "t1")])
    ∧ (connected "u1" Sample.with_unsynced_task = false →
       trace w' = trace Sample.with_unsynced_task ++ [DocDelete (taskRef "u1" "t1")]).
Proof.
  split; [split; reflexivity|].
  apply (delete_is_best_effort "u1" "t1" Sample.unsynced_task Sample.with_unsynced_task);
    reflexivity.
Defined.

(** C5 as stated fails for a user without stored credentials: the record
    carries a calendarEventId, yet DELETE attempts no remote deletion. *)
Lemma delete_without_credentials_attempts_nothing :
  ∃ d, db Sample.orphan_task !! taskRef "u2" "t1" = Some d
       ∧ field d "calendarEventId" = VStr "evt0"
       ∧ provider_calls (trace (delete_task "u2" "t1" Sample.orphan_task).1) = []
       ∧ trace (delete_task "u2" "t1" Sample.orphan_task).1
         = [DocDelete (taskRef "u2" "t1")].
Proof. exists Sample.unsynced_task. repeat split; reflexivity. Qed.

Section Runs.

Context (X : Externals).

(** ** POST /tasks, step by step *)

Lemma post_tasks_run uid body w :
  truthy (field body "title") = true →
  let id := auto_id (db w) in
  let ref := taskRef uid id in
  let now := VDate (clock w) in
  let w1 := log (DocWrite ref) (with_db (insert ref (new_task body now)) (tick w)) in
  post_tasks X uid body w
  = if truthy (field_or body "calendarSync" (VBool false))
       && truthy (field body "dueDateTime")
    then
      match upsertCalendarEvent X uid (synced_task id body) w1 with
      | (w2, Returned v) =>
          let rec := {[ "calendarEventId" := v; "updatedAt" := VDate (clock w2) ]}
                     ∪ new_task body now in
          (log (DocWrite ref) (with_db (insert ref rec) (tick w2)),
           Returned (respond 201 (Json (VObj (rec ∪ {[ "id" := VStr id ]})))))
      | (w2, Threw e) => (w2, Threw e)
      end
    else
      (w1, Returned (respond 201
                       (Json (VObj (new_task body now ∪ {[ "id" := VStr id ]}))))).
Proof.
  intros Ht id ref now w1. unfold post_tasks. rewrite Ht. cbn [negb].
  unfold bind at 1. cbn [new_Date]. unfold bind at 1. cbn [tasks_add].
  change (db (tick w)) with (db w). fold id. fold ref. fold now. fold w1.
  destruct (truthy (field_or body "calendarSync" (VBool false))
            && truthy (field body "dueDateTime")).
  - unfold bind at 1. unfold bind at 1.
    pose proof (upsert_db X uid (synced_task id body) w1) as [Hdb Hck].
    destruct (upsertCalendarEvent X uid (synced_task id body) w1) as [w2 [v|e]];
      [|reflexivity].
    cbn in Hdb, Hck. unfold bind at 1. cbn [new_Date]. unfold doc_update.
    assert (Hrec : db (tick w2) !! ref = Some (new_task body now)).
    { cbn. rewrite Hdb. cbn. apply lookup_insert_eq. }
    rewrite Hrec. unfold bind, doc_get, ret. cbn.
    rewrite lookup_insert_eq. reflexivity.
  - unfold bind, ret, doc_get. cbn. rewrite lookup_insert_eq. reflexivity.
Qed.

(** ** PATCH /tasks/:id, step by step *)

Lemma doc_set_merge_run p data w :
  doc_set_merge p data w
  = (log (DocWrite p)
       (with_db (insert p (merge_fields (default ∅ (db w !! p)) data)) w),
     Returned tt).
Proof. reflexivity. Qed.

Lemma patch_task_run uid id body w :
  let ref := taskRef uid id in
  let payload := <["updatedAt" := VDate (clock w)]> body in
  let rec1 := merge_fields (default ∅ (db w !! ref)) payload in
  let w1 := log (DocWrite ref) (with_db (insert ref rec1) (tick w)) in
  patch_task X uid id body w
  = if (truthy (field body "calendarSync") || truthy (field body "dueDateTime"))
       && not_false (field body "calendarSync")
       && truthy (field rec1 "dueDateTime")
    then
      match upsertCalendarEvent X uid (VObj (rec1 ∪ {[ "id" := VStr id ]})) w1 with
      | (w2, Returned v) =>
          let rec2 := {[ "calendarEventId" := v; "updatedAt" := VDate (clock w2) ]}
                      ∪ rec1 in
          (log (DocWrite ref) (with_db (insert ref rec2) (tick w2)),
           Returned (respond 200 (Json (VObj (rec2 ∪ {[ "id" := VStr id ]})))))
      | (w2, Threw e) => (w2, Threw e)
      end
    else
      (w1, Returned (respond 200 (Json (VObj (rec1 ∪ {[ "id" := VStr id ]}))))).
Proof.
  intros ref payload rec1 w1. unfold patch_task.
  unfold bind at 1. cbn [new_Date]. fold ref. fold payload.
  unfold bind at 1. rewrite doc_set_merge_run.
  change (db (tick w)) with (db w). fold rec1. fold w1.
  assert (Hf : ∀ k, k ≠ "updatedAt" → field payload k = field body k).
  { intros k Hk. unfold field, payload. by rewrite lookup_insert_ne. }
  rewrite !Hf by done.
  assert (Hget : doc_get ref w1 = (w1, Returned (VObj rec1))).
  { unfold doc_get. cbn. by rewrite lookup_insert_eq. }
  assert (Hdue : prop (VObj (rec1 ∪ {[ "id" := VStr id ]})) "dueDateTime"
                 = field rec1 "dueDateTime").
  { cbn. unfold field. f_equal. rewrite lookup_union.
    rewrite lookup_singleton_ne by done. by destruct (rec1 !! "dueDateTime"). }
  destruct ((truthy (field body "calendarSync") || truthy (field body "dueDateTime"))
            && not_false (field body "calendarSync")); cbn [andb].
  - unfold bind at 1. unfold bind at 1. rewrite Hget. cbn [spread].
    rewrite Hdue. destruct (truthy (field rec1 "dueDateTime")).
    + unfold bind at 1.
      pose proof (upsert_db X uid (VObj (rec1 ∪ {[ "id" := VStr id ]})) w1) as [Hdb Hck].
      destruct (upsertCalendarEvent X uid _ w1) as [w2 [v|e]]; [|reflexivity].
      cbn in Hdb, Hck. unfold bind at 1. cbn [new_Date]. unfold doc_update.
      assert (Hrec : db (tick w2) !! ref = Some rec1).
      { cbn. rewrite Hdb. apply lookup_insert_eq. }
      rewrite Hrec. unfold bind, doc_get, ret. cbn.
      rewrite lookup_insert_eq. reflexivity.
    + unfold bind, ret. rewrite Hget. reflexivity.
  - unfold bind, ret. rewrite Hget. reflexivity.
Qed.

End Runs.

(** ** The provider *)


Lemma provider_calls_app t1 t2 :
  provider_calls (t1 ++ t2) = provider_calls t1 ++ provider_calls t2.
Proof. apply List.filter_app. Qed.

Section Upsert.

Context (X : Externals).



End Upsert.

Section NoSync.

Context (X : Externals).

(** ** C1 *)

(** C1, as amended. No call reaches the calendar provider
    - from POST /tasks, when the request's calendarSync is false (or
      missing) or its dueDateTime is null (or missing);
    - from PATCH /tasks/:id, when the request sets calendarSync to false,
      or carries neither calendarSync nor dueDateTime, or the task has a
      null dueDateTime once the request is merged into it;
    - from DELETE /tasks/:id, when the record carries no calendarEventId.
    (DELETE does not look at calendarSync or dueDateTime.) *)
Theorem no_sync_no_provider_call uid id body w :
  ((truthy (field_or body "calendarSync" (VBool false)) = false
    ∨ truthy (field body "dueDateTime") = false) →
   provider_calls (trace (post_tasks X uid body w).1) = provider_calls (trace w))
  ∧ ((field body "calendarSync" = VBool false
      ∨ (truthy (field body "calendarSync") = false
         ∧ truthy (field body "dueDateTime") = false)
      ∨ truthy (field (merge_fields (default ∅ (db w !! taskRef uid id))
                         (<["updatedAt" := VDate (clock w)]> body))
                  "dueDateTime") = false) →
     provider_calls (trace (patch_task X uid id body w).1) = provider_calls (trace w))
  ∧ (truthy (prop (match db w !! taskRef uid id with
                   | Some d => VObj d
                   | None => VUndef
                   end) "calendarEventId") = false →
     provider_calls (trace (delete_task uid id w).1) = provider_calls (trace w)).
Proof.
  split; [|split].
  - intros H. destruct (truthy (field body "title")) eqn:Ht.
    + rewrite post_tasks_run by done.
      replace (truthy (field_or body "calendarSync" (VBool false))
               && truthy (field body "dueDateTime")) with false
        by (destruct H as [-> | ->]; by rewrite ?andb_false_r).
      cbn. rewrite provider_calls_app. cbn. by rewrite app_nil_r.
    + by rewrite post_tasks_falsy_title.
  - intros H. rewrite patch_task_run.
    match goal with |- context [if ?c then _ else _] =>
      replace c with false end.
    + cbn. rewrite provider_calls_app. cbn. by rewrite app_nil_r.
    + destruct H as [-> | [[-> ->] | ->]]; cbn; by rewrite ?andb_false_r.
  - intros H. destruct (delete_task_run uid id w) as (w' & -> & _ & Htr & _).
    cbn [fst]. rewrite Htr, H. cbn. rewrite provider_calls_app. cbn.
    by rewrite app_nil_r.
Qed.

End NoSync.


Lemma no_sync_no_provider_call_witness :
  provider_calls (trace (post_tasks Sample.X "u1" Sample.unsync_body Sample.linked).1)
  = provider_calls (trace Sample.linked)
  ∧ provider_calls (trace (patch_task Sample.X "u1" "t9" Sample.unsync_body Sample.linked).1)
    = provider_calls (trace Sample.linked)
  ∧ provider_calls (trace (delete_task "u1" "t9" Sample.linked).1)
    = provider_calls (trace Sample.linked).
Proof.
  destruct (no_sync_no_provider_call Sample.X "u1" "t9" Sample.unsync_body Sample.linked)
    as (Hpost & Hpatch & Hdelete).
  split; [|split].
  - apply Hpost. left. reflexivity.
  - apply Hpatch. left. reflexivity.
  - apply Hdelete. reflexivity.
Defined.

(** C1 as stated fails on DELETE: the task has calendarSync = false and
    dueDateTime = null, and the provider is called to delete its event. *)
Lemma delete_calls_provider_for_unsynced_task :
  ∃ d, db Sample.with_unsynced_task !! taskRef "u1" "t1" = Some d
       ∧ field d "calendarSync" = VBool false
       ∧ field d "dueDateTime" = VNull
       ∧ provider_calls (trace (delete_task "u1" "t1" Sample.with_unsynced_task).1)
         = [EventsDelete (VStr "evt0")].
Proof. exists Sample.unsynced_task. repeat split; reflexivity. Qed.

(** PATCH decides on the request, not on the stored task: a new
    dueDateTime sent for a task whose stored calendarSync is false reaches
    the provider. *)
Lemma patch_ignores_stored_calendarSync :
  ∃ d, db Sample.with_unsynced_task !! taskRef "u1" "t1" = Some d
       ∧ field d "calendarSync" = VBool false
       ∧ provider_calls
           (trace (patch_task Sample.X "u1" "t1"
                     {[ "dueDateTime" := VStr "2025-01-01T09:00" ]}
                     Sample.with_unsynced_task).1)
         = [EventsUpdate (VStr "evt0") Sample.an_event].
Proof. exists Sample.unsynced_task. repeat split; reflexivity. Qed.

Section CreatePath.

Context (X : Externals).

(** ** C7 *)

(** For a connected user the provider being out of reach makes
    [upsertCalendarEvent] throw. *)
Lemma upsert_offline uid task w :
  connected uid w = true →
  Calendar.online (calendar w) = false →
  ∃ w', upsertCalendarEvent X uid task w = (w', Threw CalendarProviderError).
Proof.
  intros Hc Ho. rewrite upsert_connected by done.
  destruct (truthy _); unfold events_update, events_insert,
    Calendar.update, Calendar.insert; cbn; rewrite Ho; cbn.
  all: repeat case_match; simplify_eq; eauto.
Qed.

(** C7. On POST /tasks with a title, calendarSync and dueDateTime, when
    the call of [upsertCalendarEvent] throws, the handler throws the same
    error (nothing catches it, no response is sent), and the task record
    written before stays in the database without a calendarEventId. *)
Theorem post_propagates_sync_error uid body w w2 e :
  truthy (field body "title") = true →
  truthy (field_or body "calendarSync" (VBool false)) = true →
  truthy (field body "dueDateTime") = true →
  let id := auto_id (db w) in
  let now := VDate (clock w) in
  let w1 := log (DocWrite (taskRef uid id))
              (with_db (insert (taskRef uid id) (new_task body now)) (tick w)) in
  upsertCalendarEvent X uid (synced_task id body) w1 = (w2, Threw e) →
  post_tasks X uid body w = (w2, Threw e)
  ∧ db w2 !! taskRef uid id = Some (new_task body now)
  ∧ new_task body now !! "calendarEventId" = None.
Proof.
  intros Ht Hs Hd id now w1 Hup.
  rewrite post_tasks_run by done. rewrite Hs, Hd. cbn [andb].
  fold id. fold now. fold w1. rewrite Hup. split; [done|]. split.
  - pose proof (upsert_db X uid (synced_task id body) w1) as [Hdb _].
    rewrite Hup in Hdb. cbn in Hdb. rewrite Hdb. apply lookup_insert_eq.
  - done.
Qed.

End CreatePath.

Lemma post_propagates_sync_error_witness :
  let uid := "u1" in
  let body := Sample.sync_body in
  let w := Sample.linked_offline in
  let id := auto_id (db w) in
  let now := VDate (clock w) in
  let w1 := log (DocWrite (taskRef uid id))
              (with_db (insert (taskRef uid id) (new_task body now)) (tick w)) in
  let w2 := (upsertCalendarEvent Sample.X uid (synced_task id body) w1).1 in
  (truthy (field body "title") = true
   ∧ truthy (field_or body "calendarSync" (VBool false)) = true
   ∧ truthy (field body "dueDateTime") = true
   ∧ upsertCalendarEvent Sample.X uid (synced_task id body) w1
     = (w2, Threw CalendarProviderError))
  ∧ post_tasks Sample.X uid body w = (w2, Threw CalendarProviderError)
  ∧ db w2 !! taskRef uid id = Some (new_task body now)
  ∧ new_task body now !! "calendarEventId" = None.
Proof.
  intros uid body w id now w1 w2.
  assert (Ht : truthy (field body "title") = true) by (vm_compute; reflexivity).
  assert (Hs : truthy (field_or body "calendarSync" (VBool false)) = true)
    by (vm_compute; reflexivity).
  assert (Hd : truthy (field body "dueDateTime") = true) by (vm_compute; reflexivity).
  assert (Hup : upsertCalendarEvent Sample.X uid (synced_task id body) w1
                = (w2, Threw CalendarProviderError))
    by (vm_compute; reflexivity).
  split; [exact (conj Ht (conj Hs (conj Hd Hup)))|].
  exact (post_propagates_sync_error Sample.X uid body w w2 CalendarProviderError
           Ht Hs Hd Hup).
Defined.

(** ** C3 *)


Section SyncedTask.

Context (X : Externals).



End SyncedTask.

Section SyncedTaskClaims.

Context (X : Externals).





(** Fields that the second write of a handler leaves alone. *)
Lemma second_write_keeps (rec : obj) v t k :
  k ≠ "calendarEventId" → k ≠ "updatedAt" →
  ({[ "calendarEventId" := v; "updatedAt" := t ]} ∪ rec) !! k = rec !! k.
Proof.
  intros H1 H2. rewrite lookup_union_r; [done|].
  rewrite lookup_insert_ne by done. by rewrite lookup_singleton_ne.
Qed.




End SyncedTaskClaims.



Section Callback.

Context (X : Externals).

(** ** C9 *)


End Callback.



(** The code is exchanged before the state is looked at: a state without
    identity still costs the one-shot code. *)
Lemma callback_exchanges_before_checking_state :
  trace (oauth2callback Sample.X (VStr "good-code") None Sample.empty).1
  = [GetToken (VStr "good-code")].
Proof. reflexivity. Qed.

(** A state that parses to [null] has no [uid] to read: the property
    access throws and the response is 500. *)
Lemma callback_with_null_state_is_500 :
  parse_state Sample.X (Some "null") = Some VNull
  ∧ (oauth2callback Sample.X (VStr "good-code") (Some "null") Sample.empty).2
    = Returned oauth_error.
Proof. split; reflexivity. Qed.

Section MissingRecord.

Context (X : Externals).

(** ** C10 *)

Lemma upsert_throws_provider_error uid task w w' e :
  upsertCalendarEvent X uid task w = (w', Threw e) → e = CalendarProviderError.
Proof.
  destruct (connected uid w) eqn:Hc.
  - rewrite upsert_connected by done.
    destruct (truthy _); unfold events_update, events_insert; cbn;
      repeat case_match; congruence.
  - rewrite upsert_not_connected by done. done.
Qed.


End MissingRecord.



Section Idempotence.

Context (X : Externals).

(** ** C4 *)



Lemma connected_same_db uid w w' : db w' = db w → connected uid w' = connected uid w.
Proof. unfold connected. by intros ->. Qed.



End Idempotence.


Section Supplements.

Context (X : Externals).

(** ** The same properties at the level of routes and events *)

(** Behind the middleware: a POST /tasks without title changes nothing,
    whether the caller is authenticated (400) or not (401). *)
Lemma POST_tasks_without_title authorization body w :
  body !! "title" = None →
  ∃ r, POST_tasks X authorization body w = (w, Returned r)
       ∧ (status r = 400 ∨ status r = 401).
Proof.
  intros H. unfold POST_tasks, requireAuth.
  destruct (if String.prefix _ _ then _ else _) as [[|a t]|]; [by eauto| |by eauto].
  destruct (verifyIdToken X _); [|by eauto].
  rewrite post_tasks_falsy_title by (unfold field; by rewrite H). by eauto.
Qed.

(** C2 in its setting: the listener is the one [calendarClientFor]
    registers; with no older listener on the client, the notification
    leaves {access_token: B, refresh_token: R} in the store. *)
Lemma refresh_after_calendarClientFor uid A R B w :
  B ≠ "" → (A ≠ "" ∨ R ≠ "") →
  listeners w = [] →
  db w !! userTokensRef uid
  = Some {[ "tokens" := VObj {[ "access_token" := VStr A; "refresh_token" := VStr R ]} ]} →
  db (emit_tokens (VObj {[ "access_token" := VStr B ]}) (calendarClientFor uid w).1).1
     !! userTokensRef uid
  = Some {[ "tokens" := VObj {[ "access_token" := VStr B; "refresh_token" := VStr R ]} ]}.
Proof.
  intros HB HAR Hl Hd.
  assert (Hc : connected uid w = true).
  { unfold connected. rewrite Hd. cbn. rewrite lookup_singleton_eq. cbn.
    rewrite lookup_insert_eq, lookup_insert_ne, lookup_singleton_eq by done. cbn.
    destruct HAR as [HA|HR].
    - destruct (String.eqb_spec A ""); [done|]. by rewrite orb_true_r.
    - by destruct (String.eqb_spec R "").
  }
  rewrite calendarClientFor_connected by done. cbn [fst].
  set (d := {[ "tokens" := _ ]}) in *. set (w1 := bound uid w).
  assert (Hl1 : listeners w1 = [(uid, VObj d)])
    by (unfold w1, bound; cbn; by rewrite Hl, Hd).
  assert (Hd1 : db w1 !! userTokensRef uid = Some d) by exact Hd.
  unfold emit_tokens, bind at 1. cbn [get_world]. rewrite Hl1.
  cbn [foldr fst snd]. unfold bind, try_catch.
  rewrite (tokens_listener_access_token uid d
             {[ "access_token" := VStr A; "refresh_token" := VStr R ]} B w1);
    [|done|exact Hd1|apply lookup_singleton_eq].
  cbn. unfold d.
  rewrite lookup_insert_eq, insert_insert_eq, insert_singleton. reflexivity.
Qed.

End Supplements.

(** The scenario of a failing provider: the event deletion is attempted,
    it fails, the task record is removed all the same. *)
Lemma delete_survives_provider_failure :
  let w := Sample.with_unsynced_task_offline in
  let out := delete_task "u1" "t1" w in
  Calendar.delete (VStr "evt0") (calendar w) = None
  ∧ out.2 = Returned ok_response
  ∧ db out.1 !! taskRef "u1" "t1" = None
  ∧ trace out.1 = [EventsDelete (VStr "evt0"); DocDelete (taskRef "u1" "t1")]
  ∧ calendar out.1 = calendar w.
Proof. repeat split; vm_compute; reflexivity. Qed.

(* ===================================================================== *)
(** * Further properties                                                  *)
(* ===================================================================== *)

Section Middleware.

Context (X : Externals).

(** ** The auth middleware *)


Lemma substring_all s : String.substring 0 (String.length s) s = s.
Proof. induction s as [|c s IH]; cbn; [done|]. by rewrite IH. Qed.

Lemma bearer_prefix h :
  String.prefix "Bearer " h = true → ∃ t, h = "Bearer " +:+ t.
Proof.
  intros H.
  do 7 (destruct h as [|? h]; [discriminate H|];
        cbn [String.prefix] in H;
        destruct (Ascii.ascii_dec _ _) as [<-|]; [|discriminate H]).
  by exists h.
Qed.

Lemma requireAuth_bearer t next w :
  t ≠ "" →
  requireAuth X (Some ("Bearer " +:+ t)) next w
  = match verifyIdToken X t with
    | Some uid => next uid w
    | None => (w, Returned invalid_token)
    end.
Proof.
  intros Ht. unfold requireAuth.
  change (default "" (Some ("Bearer " +:+ t))) with ("Bearer " +:+ t).
  assert (Hp : String.prefix "Bearer " ("Bearer " +:+ t) = true).
  { cbv [String.append]. cbn [String.prefix].
    repeat (destruct (Ascii.ascii_dec _ _); [|congruence]). by destruct t. }
  assert (Hs : String.substring 7 (String.length ("Bearer " +:+ t) - 7)
                 ("Bearer " +:+ t) = t).
  { cbv [String.append]. cbn [String.length Nat.sub String.substring].
    rewrite Nat.sub_0_r. apply substring_all. }
  rewrite Hp, Hs.
  destruct t as [|c t]; [done|]. by destruct (verifyIdToken X _).
Qed.

(** X1. A request without Authorization header, with a header that does
    not start with "Bearer ", or with nothing after that prefix is
    answered 401 "Missing Authorization header"; the handler behind the
    middleware does not run and the world is unchanged. *)
Theorem requireAuth_missing_token authorization next w :
  (authorization = None
   ∨ ∃ h, authorization = Some h
          ∧ (String.prefix "Bearer " h = false ∨ h = "Bearer ")) →
  requireAuth X authorization next w = (w, Returned missing_header).
Proof.
  intros [-> | (h & -> & [H | ->])]; [done| |done].
  unfold requireAuth. change (default "" (Some h)) with h. by rewrite H.
Qed.

(** X2. With the header "Bearer <t>", t not empty, the middleware hands
    exactly t to verifyIdToken: when the token is rejected the answer is
    401 "Invalid or expired ID token" and the world is unchanged; when it
    verifies, the handler runs for the uid of the decoded token. *)
Theorem requireAuth_verifies_bearer_token t next w :
  t ≠ "" →
  (verifyIdToken X t = None →
   requireAuth X (Some ("Bearer " +:+ t)) next w = (w, Returned invalid_token))
  ∧ (∀ uid, verifyIdToken X t = Some uid →
            requireAuth X (Some ("Bearer " +:+ t)) next w = next uid w).
Proof.
  intros Ht. rewrite requireAuth_bearer by done.
  split; [by intros ->|]. by intros uid ->.
Qed.

Lemma requireAuth_unverified authorization next w :
  (∀ t, authorization = Some ("Bearer " +:+ t) → verifyIdToken X t = None) →
  ∃ r, requireAuth X authorization next w = (w, Returned r) ∧ status r = 401.
Proof.
  intros H. destruct authorization as [h|].
  - destruct (String.prefix "Bearer " h) eqn:Hp.
    + apply bearer_prefix in Hp as [t ->].
      destruct (decide (t = "")) as [->|Ht].
      * exists missing_header. split; [|done].
        apply requireAuth_missing_token. right. eexists. split; [done|]. by right.
      * rewrite requireAuth_bearer by done. rewrite (H t eq_refl).
        by exists invalid_token.
    + exists missing_header. split; [|done].
      apply requireAuth_missing_token. right. eexists. split; [done|]. by left.
  - exists missing_header. split; [|done].
    apply requireAuth_missing_token. by left.
Qed.

(** X3. When no token of the Authorization header verifies, each of GET
    /tasks, POST /tasks, PATCH /tasks/:id and DELETE /tasks/:id answers
    401 and leaves the world as it was: no record is read out, written or
    removed, and no call reaches the calendar provider. *)
Theorem unauthenticated_routes_change_nothing precedes authorization id body w :
  (∀ t, authorization = Some ("Bearer " +:+ t) → verifyIdToken X t = None) →
  (∃ r, GET_tasks X precedes authorization w = (w, Returned r) ∧ status r = 401)
  ∧ (∃ r, POST_tasks X authorization body w = (w, Returned r) ∧ status r = 401)
  ∧ (∃ r, PATCH_tasks X authorization id body w = (w, Returned r) ∧ status r = 401)
  ∧ (∃ r, DELETE_tasks X authorization id w = (w, Returned r) ∧ status r = 401).
Proof.
  intros H. repeat split; by apply requireAuth_unverified.
Qed.

End Middleware.

Lemma requireAuth_missing_token_witness :
  (Some "Basic abc" = None
   ∨ ∃ h, Some "Basic abc" = Some h
          ∧ (String.prefix "Bearer " h = false ∨ h = "Bearer "))
  ∧ requireAuth Sample.X (Some "Basic abc") (λ uid, delete_task uid "t1")
      Sample.with_unsynced_task
    = (Sample.with_unsynced_task, Returned missing_header).
Proof.
  assert (H : Some "Basic abc" = None
              ∨ ∃ h, Some "Basic abc" = Some h
                     ∧ (String.prefix "Bearer " h = false ∨ h = "Bearer ")).
  { right. exists "Basic abc". split; [reflexivity|]. left. reflexivity. }
  split; [exact H|].
  exact (requireAuth_missing_token Sample.X (Some "Basic abc")
           (λ uid, delete_task uid "t1") Sample.with_unsynced_task H).
Defined.

Lemma requireAuth_verifies_bearer_token_witness :
  "id-token-u1" ≠ ""
  ∧ (verifyIdToken Sample.X "id-token-u1" = Some "u1")
  ∧ requireAuth Sample.X (Some "Bearer id-token-u1") (λ uid, delete_task uid "t1")
      Sample.with_unsynced_task
    = delete_task "u1" "t1" Sample.with_unsynced_task.
Proof.
  assert (Hne : "id-token-u1" ≠ "") by discriminate.
  split; [exact Hne|]. split; [reflexivity|].
  exact (proj2 (requireAuth_verifies_bearer_token Sample.X "id-token-u1"
                  (λ uid, delete_task uid "t1") Sample.with_unsynced_task Hne)
           "u1" eq_refl).
Defined.

Lemma unauthenticated_routes_change_nothing_witness :
  (∀ t, Some "Bearer forged" = Some ("Bearer " +:+ t) →
        verifyIdToken Sample.X t = None)
  ∧ (∃ r, DELETE_tasks Sample.X (Some "Bearer forged") "t1" Sample.with_unsynced_task
          = (Sample.with_unsynced_task, Returned r) ∧ status r = 401).
Proof.
  assert (H : ∀ t, Some "Bearer forged" = Some ("Bearer " +:+ t) →
                   verifyIdToken Sample.X t = None).
  { intros t Ht. assert (t = "forged") as ->
      by (cbv [String.append] in Ht; congruence).
    reflexivity. }
  split; [exact H|].
  exact (proj2 (proj2 (proj2 (unauthenticated_routes_change_nothing Sample.X
           Fixture.newest_first (Some "Bearer forged") "t1" ∅
           Sample.with_unsynced_task H)))).
Defined.

Section Listing.

Context (X : Externals) (precedes : string * obj → string * obj → bool).

(** ** GET /tasks *)

Lemma place_elem {A} (before : A → A → bool) x y l :
  y ∈ place before x l ↔ y = x ∨ y ∈ l.
Proof.
  induction l as [|z l IH]; cbn.
  - rewrite list_elem_of_singleton. set_solver.
  - destruct (before x z); rewrite !elem_of_cons, ?IH; naive_solver.
Qed.

Lemma orderBy_desc_elem f docs d :
  d ∈ orderBy_desc precedes f docs ↔ d ∈ docs ∧ is_Some (d.2 !! f).
Proof.
  unfold orderBy_desc.
  transitivity (d ∈ filter (λ d : string * obj, is_Some (d.2 !! f)) docs).
  - induction (filter _ docs) as [|z l IH]; cbn; [done|].
    by rewrite place_elem, IH, elem_of_cons.
  - rewrite list_elem_of_filter. naive_solver.
Qed.

Lemma tasks_of_elem (uid id : string) (d : obj) (store : gmap path obj) :
  (id, d) ∈ tasks_of uid store ↔ store !! taskRef uid id = Some d.
Proof.
  unfold tasks_of. rewrite list_elem_of_omap. split.
  - intros ([p d0] & Hin & Hf). apply elem_of_map_to_list in Hin. cbn in Hf.
    destruct p as [|a [|b [|c [|i [|]]]]]; try done.
    case_decide as Hp; [|done]. injection Hf as <- <-. by rewrite <- Hp.
  - intros H. exists (taskRef uid id, d). split.
    + by apply elem_of_map_to_list.
    + cbn. by rewrite decide_True.
Qed.

Lemma get_tasks_run uid w :
  get_tasks precedes uid w
  = (w, Returned (respond 200 (Json (VObj {[ "tasks" :=
       VArr (task_json <$> orderBy_desc precedes "createdAt" (tasks_of uid (db w))) ]})))).
Proof. reflexivity. Qed.

Lemma listed_get_tasks uid w r :
  (get_tasks precedes uid w).2 = Returned r →
  listed r = task_json <$> orderBy_desc precedes "createdAt" (tasks_of uid (db w)).
Proof.
  rewrite get_tasks_run. intros [= <-]. unfold listed, response_field. cbn.
  by rewrite lookup_singleton_eq.
Qed.

(** X4. GET /tasks answers 200 and changes nothing; it lists exactly the
    caller's task documents that have a createdAt field, each as its
    fields plus its id, and no document of another user. *)
Theorem get_tasks_lists_own_dated_tasks uid w :
  ∃ r, get_tasks precedes uid w = (w, Returned r)
       ∧ status r = 200
       ∧ ∀ v, v ∈ listed r
              ↔ ∃ id d, db w !! taskRef uid id = Some d
                        ∧ is_Some (d !! "createdAt")
                        ∧ v = VObj (d ∪ {[ "id" := VStr id ]}).
Proof.
  eexists. split; [apply get_tasks_run|]. split; [done|].
  intros v. erewrite listed_get_tasks by (by rewrite get_tasks_run).
  rewrite list_elem_of_fmap. split.
  - intros ([id d] & -> & Hin). apply orderBy_desc_elem in Hin as [Hin Hc].
    apply tasks_of_elem in Hin. by exists id, d.
  - intros (id & d & Hd & Hc & ->). exists (id, d). split; [done|].
    apply orderBy_desc_elem. split; [by apply tasks_of_elem|done].
Qed.

(** What POST /tasks has stored when it returns with a title. *)
Lemma post_tasks_returned uid body w w' r :
  truthy (field body "title") = true →
  post_tasks X uid body w = (w', Returned r) →
  ∃ rec, db w' !! taskRef uid (auto_id (db w)) = Some rec
         ∧ r = respond 201 (Json (VObj (rec ∪ {[ "id" := VStr (auto_id (db w)) ]})))
         ∧ rec !! "createdAt" = Some (VDate (clock w)).
Proof.
  intros Ht. rewrite post_tasks_run by done.
  assert (Hc : new_task body (VDate (clock w)) !! "createdAt" = Some (VDate (clock w)))
    by reflexivity.
  destruct (_ && _).
  - destruct (upsertCalendarEvent X uid _ _) as [w2 [v|e]]; [|done].
    intros [= <- <-]. eexists. split; [apply lookup_insert_eq|]. split; [done|].
    by rewrite second_write_keeps.
  - intros [= <- <-]. eexists. split; [apply lookup_insert_eq|]. done.
Qed.

(** X5. Round trip: when POST /tasks returns, the body of its 201
    response, calendarEventId included, is one of the tasks a following
    GET /tasks of the same user lists. *)
Theorem posted_task_is_listed uid body w w' r :
  truthy (field body "title") = true →
  post_tasks X uid body w = (w', Returned r) →
  ∃ v r', content r = Json v
          ∧ get_tasks precedes uid w' = (w', Returned r')
          ∧ v ∈ listed r'.
Proof.
  intros Ht Hp.
  destruct (post_tasks_returned uid body w w' r Ht Hp) as (rec & Hrec & -> & Hc).
  destruct (get_tasks_lists_own_dated_tasks uid w') as (r' & Hg & _ & Hl).
  eexists _, r'. split; [reflexivity|]. split; [exact Hg|].
  apply Hl. exists (auto_id (db w)), rec. split; [done|]. split; [by eexists|done].
Qed.

End Listing.

Lemma posted_task_is_listed_witness :
  truthy (field Sample.sync_body "title") = true
  ∧ ∃ w' r v r',
      post_tasks Sample.X "u1" Sample.sync_body Sample.linked = (w', Returned r)
      ∧ content r = Json v
      ∧ get_tasks Fixture.newest_first "u1" w' = (w', Returned r')
      ∧ v ∈ listed r'.
Proof.
  assert (Ht : truthy (field Sample.sync_body "title") = true)
    by (vm_compute; reflexivity).
  split; [exact Ht|].
  destruct (post_tasks Sample.X "u1" Sample.sync_body Sample.linked)
    as [w' [r|e]] eqn:E; [|vm_compute in E; discriminate E].
  destruct (posted_task_is_listed Sample.X Fixture.newest_first "u1"
              Sample.sync_body Sample.linked w' r Ht E) as (v & r' & Hv & Hg & Hl).
  exists w', r, v, r'. repeat split; assumption.
Defined.

Section Records.

Context (X : Externals) (precedes : string * obj → string * obj → bool).

(** ** What the task handlers store *)

Lemma taskRef_last uid id : last (taskRef uid id) = Some id.
Proof. reflexivity. Qed.


(** The record after PATCH /tasks/:id, whatever the outcome. *)
Lemma patch_task_record uid id body w :
  let payload := <["updatedAt" := VDate (clock w)]> body in
  let rec1 := merge_fields (default ∅ (db w !! taskRef uid id)) payload in
  let out := patch_task X uid id body w in
  (∀ p, p ≠ taskRef uid id → db out.1 !! p = db w !! p)
  ∧ ((db out.1 !! taskRef uid id = Some rec1
      ∧ (∀ e, out.2 = Threw e → e = CalendarProviderError))
     ∨ (∃ v r, out.2 = Returned r
               ∧ db out.1 !! taskRef uid id
                 = Some ({[ "calendarEventId" := v;
                            "updatedAt" := VDate (clock w + 1) ]} ∪ rec1))).
Proof.
  intros payload rec1 out. unfold out. rewrite patch_task_run.
  fold payload. fold rec1.
  destruct (_ && _ && _).
  - pose proof (upsert_db X uid (VObj (rec1 ∪ {[ "id" := VStr id ]}))
                  (log (DocWrite (taskRef uid id))
                     (with_db (insert (taskRef uid id) rec1) (tick w))))
      as [Hdb Hck].
    destruct (upsertCalendarEvent X uid _ _) as [w2 [v|e]] eqn:Hup;
      cbn in Hdb, Hck |- *.
    + split.
      { intros p Hp. rewrite lookup_insert_ne by done. rewrite Hdb.
        by rewrite lookup_insert_ne. }
      right. exists v. eexists. split; [done|].
      rewrite lookup_insert_eq, Hck. done.
    + split.
      { intros p Hp. rewrite Hdb. by rewrite lookup_insert_ne. }
      left. rewrite Hdb, lookup_insert_eq. split; [done|].
      intros e' [= <-]. by eapply upsert_throws_provider_error.
  - cbn. split; [intros p Hp; by rewrite lookup_insert_ne|].
    left. rewrite lookup_insert_eq. split; [done|]. intros e [=].
Qed.

(** X6. PATCH /tasks/:id is a merge that is stored before the sync and
    stays whatever comes after: whether the handler returns or throws, the
    record exists afterwards; a field the request carries is merged into
    the stored one (a value that is not a non-empty object replaces it), a
    field the request does not carry keeps its stored value
    (calendarEventId and updatedAt apart), and updatedAt is the server's
    date even when the client sent one. *)
Theorem patch_merges_and_persists uid id body w :
  let old := default ∅ (db w !! taskRef uid id) in
  let out := patch_task X uid id body w in
  ∃ rec,
    db out.1 !! taskRef uid id = Some rec
    ∧ (∀ k, k ≠ "calendarEventId" → k ≠ "updatedAt" →
            rec !! k = match old !! k, body !! k with
                       | Some o, Some n => Some (merge_value o n)
                       | Some o, None => Some o
                       | None, n => n
                       end)
    ∧ (rec !! "updatedAt" = Some (VDate (clock w))
       ∨ rec !! "updatedAt" = Some (VDate (clock w + 1)))
    ∧ (∀ e, out.2 = Threw e →
            e = CalendarProviderError
            ∧ rec !! "calendarEventId"
              = match old !! "calendarEventId", body !! "calendarEventId" with
                | Some o, Some n => Some (merge_value o n)
                | Some o, None => Some o
                | None, n => n
                end).
Proof.
  intros old out.
  destruct (patch_task_record uid id body w) as [_ H]. fold out in H. fold old in H.
  set (payload := <["updatedAt" := VDate (clock w)]> body) in H.
  set (rec1 := merge_fields old payload) in H.
  assert (Hk : ∀ k, k ≠ "updatedAt" →
            rec1 !! k = match old !! k, body !! k with
                        | Some o, Some n => Some (merge_value o n)
                        | Some o, None => Some o
                        | None, n => n
                        end).
  { intros k Hk. unfold rec1, payload.
    by rewrite merge_fields_lookup, lookup_insert_ne. }
  assert (Hu : rec1 !! "updatedAt" = Some (VDate (clock w))).
  { unfold rec1, payload. rewrite merge_fields_lookup, lookup_insert_eq.
    by destruct (old !! "updatedAt") as [[]|]. }
  destruct H as [[Hrec Hthrow] | (v & r & Hret & Hrec)].
  - exists rec1. split; [done|]. split; [intros k _ ?; by apply Hk|].
    split; [by left|]. intros e He. split; [by apply Hthrow|]. by apply Hk.
  - eexists. split; [exact Hrec|]. split.
    { intros k H1 H2. rewrite second_write_keeps by done. by apply Hk. }
    split.
    { right. apply lookup_union_Some_l. rewrite lookup_insert_ne by done.
      apply lookup_singleton_eq. }
    intros e He. rewrite Hret in He. done.
Qed.

(** X7. A record that PATCH /tasks/:id creates for an unknown id from a
    request without createdAt is stored but never listed by GET /tasks:
    the query is ordered by createdAt, which that record does not have. *)
Theorem patch_created_task_is_not_listed uid id body w :
  db w !! taskRef uid id = None →
  body !! "createdAt" = None →
  let w' := (patch_task X uid id body w).1 in
  ∃ rec r,
    db w' !! taskRef uid id = Some rec
    ∧ get_tasks precedes uid w' = (w', Returned r)
    ∧ VObj (rec ∪ {[ "id" := VStr id ]}) ∉ listed r.
Proof.
  intros Hnone Hb w'.
  destruct (patch_merges_and_persists uid id body w) as (rec & Hrec & Hk & _).
  fold w' in Hrec. rewrite Hnone in Hk. cbn in Hk.
  assert (Hc : rec !! "createdAt" = None).
  { rewrite Hk by done. rewrite lookup_empty. exact Hb. }
  destruct (get_tasks_lists_own_dated_tasks precedes uid w') as (r & Hg & _ & Hl).
  exists rec, r. split; [exact Hrec|]. split; [exact Hg|].
  intros Hin. apply Hl in Hin as (id' & d & _ & [c Hdc] & Heq).
  injection Heq as Heq. apply (f_equal (lookup "createdAt")) in Heq.
  rewrite !lookup_union, !lookup_singleton_ne, Hc, Hdc in Heq by done.
  done.
Qed.



End Records.

Lemma patch_merges_and_persists_witness :
  let body : obj := {[ "dueDateTime" := VStr "2025-02-02T10:00" ]} in
  let out := patch_task Sample.X "u1" "t1" body Fixture.with_stale_task in
  out.2 = Threw CalendarProviderError
  ∧ ∃ rec, db out.1 !! taskRef "u1" "t1" = Some rec
           ∧ rec !! "title" = Some (VStr "Pay rent")
           ∧ rec !! "dueDateTime" = Some (VStr "2025-02-02T10:00")
           ∧ rec !! "calendarEventId" = Some (VStr "gone").
Proof.
  intros body out.
  assert (Hout : out.2 = Threw CalendarProviderError) by (vm_compute; reflexivity).
  split; [exact Hout|].
  destruct (patch_merges_and_persists Sample.X "u1" "t1" body Fixture.with_stale_task)
    as (rec & Hrec & Hk & _ & Hthrow).
  exists rec. split; [exact Hrec|].
  rewrite (Hk "title"), (Hk "dueDateTime") by done.
  rewrite (proj2 (Hthrow _ Hout)).
  repeat split; vm_compute; reflexivity.
Defined.

Lemma patch_created_task_is_not_listed_witness :
  (db Sample.linked !! taskRef "u1" "t9" = None
   ∧ Sample.due_body !! "createdAt" = None)
  ∧ let w' := (patch_task Sample.X "u1" "t9" Sample.due_body Sample.linked).1 in
    ∃ rec r,
      db w' !! taskRef "u1" "t9" = Some rec
      ∧ get_tasks Fixture.newest_first "u1" w' = (w', Returned r)
      ∧ VObj (rec ∪ {[ "id" := VStr "t9" ]}) ∉ listed r.
Proof.
  assert (H1 : db Sample.linked !! taskRef "u1" "t9" = None)
    by (vm_compute; reflexivity).
  assert (H2 : Sample.due_body !! "createdAt" = None) by (vm_compute; reflexivity).
  split; [exact (conj H1 H2)|].
  exact (patch_created_task_is_not_listed Sample.X Fixture.newest_first
           "u1" "t9" Sample.due_body Sample.linked H1 H2).
Defined.



Section Deleting.

Context (X : Externals).

(** ** DELETE /tasks/:id, further *)

Lemma delete_missing_task uid id w :
  db w !! taskRef uid id = None →
  delete_task uid id w = (log (DocDelete (taskRef uid id)) w, Returned ok_response).
Proof.
  intros H. unfold delete_task, bind, doc_get, doc_delete, modify, ret. rewrite H.
  cbn. unfold with_db, log. destruct w as [store ? ? ? ? ?]. cbn in *.
  by rewrite delete_id.
Qed.

(** X10. DELETE /tasks/:id can be repeated: it answers {ok: true} for an
    id without record as well, and the second of two DELETEs finds nothing
    to do; it calls nobody and leaves database, calendar and OAuth client
    as the first one left them. *)
Theorem delete_twice_is_delete_once uid id w :
  let w1 := (delete_task uid id w).1 in
  delete_task uid id w1 = (log (DocDelete (taskRef uid id)) w1, Returned ok_response).
Proof.
  intros w1. apply delete_missing_task.
  destruct (delete_task_run uid id w) as (w' & Hrun & Hdb & _).
  unfold w1. rewrite Hrun. cbn [fst]. rewrite Hdb. apply lookup_delete_eq.
Qed.

(** X11. When the user is connected, the provider can be reached and it
    holds the event the record names, DELETE /tasks/:id removes both: the
    event from the provider and the record from the database; every other
    event stays. *)
Theorem delete_removes_event_and_record uid id d e w :
  db w !! taskRef uid id = Some d →
  d !! "calendarEventId" = Some (VStr e) → e ≠ "" →
  connected uid w = true →
  Calendar.online (calendar w) = true →
  is_Some (Calendar.events (calendar w) !! e) →
  let out := delete_task uid id w in
  out.2 = Returned ok_response
  ∧ db out.1 !! taskRef uid id = None
  ∧ Calendar.events (calendar out.1) = delete e (Calendar.events (calendar w)).
Proof.
  intros Hd He Hne Hc Ho Hin out.
  destruct (delete_task_run uid id w) as (w' & Hrun & Hdb & _ & Hcal).
  unfold out. rewrite Hrun. cbn [fst snd]. split; [done|]. split.
  - rewrite Hdb. apply lookup_delete_eq.
  - rewrite Hcal, Hd. cbn. rewrite He. cbn.
    destruct (String.eqb_spec e "") as [|_]; [done|]. cbn. rewrite Hc.
    unfold Calendar.delete. rewrite Ho. cbn.
    by rewrite bool_decide_eq_true_2.
Qed.

End Deleting.

Lemma delete_removes_event_and_record_witness :
  let w := Sample.with_unsynced_task in
  (db w !! taskRef "u1" "t1" = Some Sample.unsynced_task
   ∧ Sample.unsynced_task !! "calendarEventId" = Some (VStr "evt0")
   ∧ "evt0" ≠ ""
   ∧ connected "u1" w = true
   ∧ Calendar.online (calendar w) = true
   ∧ is_Some (Calendar.events (calendar w) !! "evt0"))
  ∧ let out := delete_task "u1" "t1" w in
    out.2 = Returned ok_response
    ∧ db out.1 !! taskRef "u1" "t1" = None
    ∧ Calendar.events (calendar out.1) = delete "evt0" (Calendar.events (calendar w)).
Proof.
  intros w.
  assert (H1 : db w !! taskRef "u1" "t1" = Some Sample.unsynced_task)
    by (vm_compute; reflexivity).
  assert (H2 : Sample.unsynced_task !! "calendarEventId" = Some (VStr "evt0"))
    by (vm_compute; reflexivity).
  assert (H3 : "evt0" ≠ "") by discriminate.
  assert (H4 : connected "u1" w = true) by (vm_compute; reflexivity).
  assert (H5 : Calendar.online (calendar w) = true) by reflexivity.
  assert (H6 : is_Some (Calendar.events (calendar w) !! "evt0"))
    by (eexists; vm_compute; reflexivity).
  split; [exact (conj H1 (conj H2 (conj H3 (conj H4 (conj H5 H6)))))|].
  exact (delete_removes_event_and_record "u1" "t1" Sample.unsynced_task "evt0" w
           H1 H2 H3 H4 H5 H6).
Defined.

Section Upserting.

Context (X : Externals).

(** ** upsertCalendarEvent, further *)

(** X12. There is no fallback from update to create: when the task
    carries the id of an event the provider does not hold, the one
    provider call is the update, it is rejected, [upsertCalendarEvent]
    throws, and the provider's events are what they were; so a
    sync-triggering PATCH of such a task keeps failing. *)
Theorem stale_event_id_is_not_recreated uid task e w :
  connected uid w = true →
  prop task "calendarEventId" = VStr e → e ≠ "" →
  Calendar.events (calendar w) !! e = None →
  upsertCalendarEvent X uid task w
  = (log (EventsUpdate (VStr e) (event_of X task)) (bound uid w),
     Threw CalendarProviderError).
Proof.
  intros Hc He Hne Hnone. rewrite upsert_connected by done. rewrite He. cbn.
  destruct (String.eqb_spec e "") as [|_]; [done|]. cbn.
  unfold events_update, Calendar.update. cbn. rewrite Hnone.
  rewrite bool_decide_eq_false_2 by (by intros [? ?]).
  by rewrite andb_false_r.
Qed.

(** X13. The dueDateTime is not validated: for a text luxon cannot read,
    the event is sent all the same, with null start, end and time zones. *)
Theorem unreadable_date_is_sent_as_null uid task w :
  connected uid w = true →
  Calendar.online (calendar w) = true →
  truthy (prop task "calendarEventId") = false →
  iso_instant X (prop task "dueDateTime")
    (or (prop task "timezone") (VStr "Africa/Lagos")) = None →
  let nowhen := {| Calendar.dateTime := None; Calendar.timeZone := VNull |} in
  event_of X task
  = {| Calendar.summary := prop task "title";
       Calendar.description := or (prop task "description") (VStr "");
       Calendar.start := nowhen; Calendar.end_ := nowhen |}
  ∧ ∃ w' e, upsertCalendarEvent X uid task w = (w', Returned (VStr e))
            ∧ Calendar.events (calendar w') !! e = Some (event_of X task)
            ∧ provider_calls (trace w')
              = provider_calls (trace w) ++ [EventsInsert (event_of X task)].
Proof.
  intros Hc Ho Ht Hi nowhen.
  assert (Hev : event_of X task
                = {| Calendar.summary := prop task "title";
                     Calendar.description := or (prop task "description") (VStr "");
                     Calendar.start := nowhen; Calendar.end_ := nowhen |}).
  { unfold event_of, Luxon.fromISO. rewrite Hi. reflexivity. }
  split; [exact Hev|].
  rewrite upsert_connected by done. rewrite Ht.
  unfold events_insert, Calendar.insert. cbn. rewrite Ho.
  eexists _, _. split; [reflexivity|]. cbn. split; [apply lookup_insert_eq|].
  rewrite provider_calls_app. done.
Qed.

End Upserting.

Lemma stale_event_id_is_not_recreated_witness :
  let w := Fixture.with_stale_task in
  let task := VObj Fixture.stale_task in
  (connected "u1" w = true
   ∧ prop task "calendarEventId" = VStr "gone"
   ∧ "gone" ≠ ""
   ∧ Calendar.events (calendar w) !! "gone" = None)
  ∧ upsertCalendarEvent Sample.X "u1" task w
    = (log (EventsUpdate (VStr "gone") (event_of Sample.X task)) (bound "u1" w),
       Threw CalendarProviderError).
Proof.
  intros w task.
  assert (H1 : connected "u1" w = true) by (vm_compute; reflexivity).
  assert (H2 : prop task "calendarEventId" = VStr "gone") by (vm_compute; reflexivity).
  assert (H3 : "gone" ≠ "") by discriminate.
  assert (H4 : Calendar.events (calendar w) !! "gone" = None)
    by (vm_compute; reflexivity).
  split; [exact (conj H1 (conj H2 (conj H3 H4)))|].
  exact (stale_event_id_is_not_recreated Sample.X "u1" task "gone" w H1 H2 H3 H4).
Defined.

Lemma unreadable_date_is_sent_as_null_witness :
  let w := Sample.linked in
  let task := VObj Fixture.bad_date_body in
  (connected "u1" w = true
   ∧ Calendar.online (calendar w) = true
   ∧ truthy (prop task "calendarEventId") = false
   ∧ iso_instant Sample.X (prop task "dueDateTime")
       (or (prop task "timezone") (VStr "Africa/Lagos")) = None)
  ∧ ∃ w' e, upsertCalendarEvent Sample.X "u1" task w = (w', Returned (VStr e))
            ∧ Calendar.events (calendar w') !! e = Some (event_of Sample.X task)
            ∧ provider_calls (trace w')
              = provider_calls (trace w) ++ [EventsInsert (event_of Sample.X task)].
Proof.
  intros w task.
  assert (H1 : connected "u1" w = true) by (vm_compute; reflexivity).
  assert (H2 : Calendar.online (calendar w) = true) by reflexivity.
  assert (H3 : truthy (prop task "calendarEventId") = false)
    by (vm_compute; reflexivity).
  assert (H4 : iso_instant Sample.X (prop task "dueDateTime")
                 (or (prop task "timezone") (VStr "Africa/Lagos")) = None)
    by (vm_compute; reflexivity).
  split; [exact (conj H1 (conj H2 (conj H3 H4)))|].
  exact (proj2 (unreadable_date_is_sent_as_null Sample.X "u1" task w H1 H2 H3 H4)).
Defined.

Section Credentials.

Context (X : Externals).

(** ** The credential store *)

Lemma merge_value_token o (T : obj) k s :
  T !! k = Some (VStr s) → prop (merge_value o (VObj T)) k = VStr s.
Proof.
  intros H. destruct o as [| | | | | | |mo]; cbn; try (by rewrite H).
  case_decide; cbn; [by rewrite H|].
  rewrite lookup_union_with, H. destruct (mo !! k) as [o'|]; cbn; [|done].
  by destruct o'.
Qed.


Lemma userTokensRef_inj u u' : userTokensRef u = userTokensRef u' → u = u'.
Proof. by intros [= ->]. Qed.

(** The token field of a credential record after [set({ tokens }, { merge:
    true })]. *)
Lemma stored_tokens_after_merge u (T : obj) w e :
  stored_field (log e (with_db (set_merge (userTokensRef u) {[ "tokens" := VObj T ]}) w))
    (userTokensRef u) "tokens"
  = match db w !! userTokensRef u ≫= lookup "tokens" with
    | Some o => merge_value o (VObj T)
    | None => VObj T
    end.
Proof.
  unfold stored_field, set_merge. cbn. rewrite lookup_insert_eq. cbn.
  rewrite merge_fields_lookup, lookup_singleton_eq.
  destruct (db w !! userTokensRef u) as [d|]; cbn.
  - by destruct (d !! "tokens").
  - by rewrite lookup_empty.
Qed.




(** ** The listeners on the shared OAuth client *)

Lemma emit_tokens_run tokens w :
  emit_tokens tokens w = run_listeners tokens (listeners w) w.
Proof. reflexivity. Qed.

Lemma tokens_listener_writes uid data (T : obj) s w :
  T !! "access_token" = Some (VStr s) → s ≠ "" →
  tokens_listener uid data (VObj T) w
  = (log (DocWrite (userTokensRef uid))
       (with_db (set_merge (userTokensRef uid)
                   {[ "tokens" := VObj (T ∪ spread (prop data "tokens")) ]}) w),
     Returned tt).
Proof.
  intros H Hs. unfold tokens_listener, member, bind, ret. cbn. rewrite H. cbn.
  destruct (String.eqb_spec s "") as [|_]; [done|]. cbn.
  by rewrite orb_true_r.
Qed.

Lemma run_listeners_cons tokens l ls w :
  run_listeners tokens (l :: ls) w
  = run_listeners tokens ls (tokens_listener l.1 l.2 tokens w).1.
Proof.
  unfold run_listeners at 1. cbn [foldr]. unfold bind, try_catch, ret.
  by destruct (tokens_listener l.1 l.2 tokens w) as [w' [[]|e]].
Qed.

Lemma resolve_times_spec n uid w :
  connected uid w = true →
  let data := match db w !! userTokensRef uid with
              | Some d => VObj d
              | None => VUndef
              end in
  db (resolve_times n uid w) = db w
  ∧ trace (resolve_times n uid w) = trace w
  ∧ listeners (resolve_times n uid w) = listeners w ++ replicate n (uid, data).
Proof.
  intros Hc data. induction n as [|n (Hdb & Htr & Hl)].
  - cbn. by rewrite app_nil_r.
  - change (resolve_times (S n) uid w)
      with (calendarClientFor uid (resolve_times n uid w)).1.
    rewrite calendarClientFor_connected
      by (by rewrite (connected_same_db uid w _ Hdb)).
    unfold bound. cbn. rewrite Hdb, Htr, Hl. fold data. repeat split; try done.
    rewrite <- app_assoc. f_equal. symmetry. apply replicate_cons_app.
Qed.

Lemma run_listeners_trace (T : obj) s ls w :
  T !! "access_token" = Some (VStr s) → s ≠ "" →
  trace (run_listeners (VObj T) ls w).1
  = trace w ++ ((λ l, DocWrite (userTokensRef l.1)) <$> ls).
Proof.
  intros H Hs. revert w. induction ls as [|l ls IH]; intros w.
  - cbn. by rewrite app_nil_r.
  - rewrite run_listeners_cons, (tokens_listener_writes _ _ T s) by done.
    rewrite IH. cbn. by rewrite <- app_assoc.
Qed.

(** X16. Listeners pile up on the one OAuth client: every call of
    [calendarClientFor] for a connected user registers one more and none
    is ever removed, so after n calls a single token refresh is written
    to the user's credential document n times. *)
Theorem listeners_accumulate n uid (T : obj) s w :
  connected uid w = true →
  listeners w = [] →
  T !! "access_token" = Some (VStr s) → s ≠ "" →
  length (listeners (resolve_times n uid w)) = n
  ∧ trace (emit_tokens (VObj T) (resolve_times n uid w)).1
    = trace w ++ replicate n (DocWrite (userTokensRef uid)).
Proof.
  intros Hc Hl HT Hs.
  destruct (resolve_times_spec n uid w Hc) as (_ & Htr & Hls).
  rewrite Hl in Hls. cbn in Hls. split.
  - by rewrite Hls, length_replicate.
  - rewrite emit_tokens_run, (run_listeners_trace T s) by done.
    rewrite Htr, Hls, fmap_replicate. done.
Qed.

Lemma listener_sets_access_token u data B w :
  B ≠ "" →
  stored_access_token u
    (tokens_listener u data (VObj {[ "access_token" := VStr B ]}) w).1 = VStr B.
Proof.
  intros HB.
  rewrite (tokens_listener_writes u data {[ "access_token" := VStr B ]} B)
    by (done || apply lookup_singleton_eq).
  cbn [fst]. unfold stored_access_token. rewrite stored_tokens_after_merge.
  assert (Hl : ({[ "access_token" := VStr B ]} ∪ spread (prop data "tokens") : obj)
               !! "access_token" = Some (VStr B))
    by (apply lookup_union_Some_l, lookup_singleton_eq).
  destruct (_ ≫= _); [by apply merge_value_token|]. cbn. by rewrite Hl.
Qed.

Lemma listener_keeps_access_token u u' data B w :
  B ≠ "" →
  stored_access_token u w = VStr B →
  stored_access_token u
    (tokens_listener u' data (VObj {[ "access_token" := VStr B ]}) w).1 = VStr B.
Proof.
  intros HB H. destruct (decide (u' = u)) as [->|Hne].
  - by apply listener_sets_access_token.
  - rewrite (tokens_listener_writes u' data {[ "access_token" := VStr B ]} B)
      by (done || apply lookup_singleton_eq).
    cbn [fst]. unfold stored_access_token, stored_field, set_merge in *. cbn.
    rewrite lookup_insert_ne; [done|]. intros E. by apply userTokensRef_inj in E.
Qed.

(** X17. A token refresh does not stay with its user: the notification
    runs the listener of every user registered on the shared client, so
    the refreshed access token ends up in the credential record of each
    of them, whoever it was issued to. *)
Theorem refresh_reaches_every_registered_user u data B w :
  B ≠ "" →
  (u, data) ∈ listeners w →
  stored_access_token u (emit_tokens (VObj {[ "access_token" := VStr B ]}) w).1
  = VStr B.
Proof.
  intros HB Hin. rewrite emit_tokens_run.
  assert (Hkeep : ∀ ls w0, stored_access_token u w0 = VStr B →
            stored_access_token u
              (run_listeners (VObj {[ "access_token" := VStr B ]}) ls w0).1 = VStr B).
  { induction ls as [|l ls IH]; intros w0 H0; [done|].
    rewrite run_listeners_cons. apply IH.
    by apply listener_keeps_access_token. }
  revert Hin. generalize (listeners w) as ls. intros ls. revert w.
  induction ls as [|l ls IH]; intros w Hin; [by apply elem_of_nil in Hin|].
  rewrite run_listeners_cons. apply elem_of_cons in Hin as [<-|Hin].
  - apply Hkeep. by apply listener_sets_access_token.
  - by apply IH.
Qed.

(** X18. The listener writes back what it captured when it was
    registered: after a notification with a new access token, the stored
    refresh token is the one of the listener's snapshot, also when a
    different one has been stored since. *)
Theorem listener_restores_captured_refresh_token uid (d T : obj) R B w :
  B ≠ "" →
  d !! "tokens" = Some (VObj T) →
  T !! "refresh_token" = Some (VStr R) →
  let w' := (tokens_listener uid (VObj d) (VObj {[ "access_token" := VStr B ]}) w).1 in
  stored_refresh_token uid w' = VStr R
  ∧ stored_access_token uid w' = VStr B.
Proof.
  intros HB Hd HT w'. split; [|by apply listener_sets_access_token].
  unfold w'.
  rewrite (tokens_listener_writes uid (VObj d) {[ "access_token" := VStr B ]} B)
    by (done || apply lookup_singleton_eq).
  cbn [fst]. unfold stored_refresh_token. rewrite stored_tokens_after_merge.
  cbn [prop]. rewrite Hd. cbn [default spread].
  assert (Hl : ({[ "access_token" := VStr B ]} ∪ T : obj) !! "refresh_token"
               = Some (VStr R)).
  { rewrite lookup_union_r; [done|]. by apply lookup_singleton_ne. }
  destruct (_ ≫= _); [by apply merge_value_token|]. cbn. by rewrite Hl.
Qed.

End Credentials.



Lemma listeners_accumulate_witness :
  let T : obj := {[ "access_token" := VStr "B" ]} in
  (connected "u1" Sample.linked = true
   ∧ listeners Sample.linked = []
   ∧ T !! "access_token" = Some (VStr "B") ∧ "B" ≠ "")
  ∧ length (listeners (resolve_times 3 "u1" Sample.linked)) = 3%nat
  ∧ trace (emit_tokens (VObj T) (resolve_times 3 "u1" Sample.linked)).1
    = trace Sample.linked ++ replicate 3 (DocWrite (userTokensRef "u1")).
Proof.
  intros T.
  assert (H1 : connected "u1" Sample.linked = true) by (vm_compute; reflexivity).
  assert (H2 : listeners Sample.linked = []) by reflexivity.
  assert (H3 : T !! "access_token" = Some (VStr "B")) by (vm_compute; reflexivity).
  assert (H4 : "B" ≠ "") by discriminate.
  split; [exact (conj H1 (conj H2 (conj H3 H4)))|].
  exact (listeners_accumulate 3 "u1" T "B" Sample.linked H1 H2 H3 H4).
Defined.

Lemma refresh_reaches_every_registered_user_witness :
  ("B" ≠ "" ∧ ("u1", VObj Sample.secrets_u1) ∈ listeners Fixture.two_sessions)
  ∧ credentials Fixture.two_sessions = field Fixture.secrets_u2 "tokens"
  ∧ stored_access_token "u1" Fixture.two_sessions = VStr "A"
  ∧ stored_access_token "u1"
      (emit_tokens (VObj {[ "access_token" := VStr "B" ]}) Fixture.two_sessions).1
    = VStr "B".
Proof.
  assert (H1 : "B" ≠ "") by discriminate.
  assert (H2 : ("u1", VObj Sample.secrets_u1) ∈ listeners Fixture.two_sessions).
  { assert (E : listeners Fixture.two_sessions
                = [("u1", VObj Sample.secrets_u1); ("u2", VObj Fixture.secrets_u2)])
      by (vm_compute; reflexivity).
    rewrite E. apply elem_of_cons. by left. }
  split; [exact (conj H1 H2)|].
  split; [vm_compute; reflexivity|]. split; [vm_compute; reflexivity|].
  exact (refresh_reaches_every_registered_user "u1" (VObj Sample.secrets_u1) "B"
           Fixture.two_sessions H1 H2).
Defined.

Lemma listener_restores_captured_refresh_token_witness :
  let T : obj := {[ "access_token" := VStr "A"; "refresh_token" := VStr "R" ]} in
  ("B" ≠ ""
   ∧ Sample.secrets_u1 !! "tokens" = Some (VObj T)
   ∧ T !! "refresh_token" = Some (VStr "R"))
  ∧ stored_refresh_token "u1" Fixture.relinked = VStr "R2"
  ∧ let w' := (tokens_listener "u1" (VObj Sample.secrets_u1)
                 (VObj {[ "access_token" := VStr "B" ]}) Fixture.relinked).1 in
    stored_refresh_token "u1" w' = VStr "R"
    ∧ stored_access_token "u1" w' = VStr "B".
Proof.
  intros T.
  assert (H1 : "B" ≠ "") by discriminate.
  assert (H2 : Sample.secrets_u1 !! "tokens" = Some (VObj T))
    by (vm_compute; reflexivity).
  assert (H3 : T !! "refresh_token" = Some (VStr "R")) by (vm_compute; reflexivity).
  split; [exact (conj H1 (conj H2 H3))|]. split; [vm_compute; reflexivity|].
  exact (listener_restores_captured_refresh_token "u1" Sample.secrets_u1 T "R" "B"
           Fixture.relinked H1 H2 H3).
Defined.

Section Edges.

Context (X : Externals).

(** ** Edges of POST /tasks and of the callback *)

(** X19. A title that is present but empty, null, false or zero is
    refused like a missing one: 400, and nothing is written or called. *)
Theorem post_with_empty_title_is_rejected uid body w :
  field body "title" ∈ [VStr ""; VNull; VBool false; VNum 0] →
  post_tasks X uid body w
  = (w, Returned (respond 400 (Json (VObj {[ "error" := VStr "title is required" ]})))).
Proof.
  intros H. apply post_tasks_falsy_title.
  repeat (apply elem_of_cons in H as [-> | H]; [done|]).
  by apply elem_of_nil in H.
Qed.

(** X20. A state that JSON.parse rejects is answered 500 before anything
    else happens: the authorization code is not exchanged and nothing is
    stored. *)
Theorem callback_with_unparsable_state code state w :
  parse_state X state = None →
  oauth2callback X code state w = (w, Returned oauth_error).
Proof.
  intros H. unfold oauth2callback, try_catch, bind. by rewrite H.
Qed.


End Edges.

Lemma post_with_empty_title_is_rejected_witness :
  let body : obj := {[ "title" := VStr ""; "calendarSync" := VBool true ]} in
  field body "title" ∈ [VStr ""; VNull; VBool false; VNum 0]
  ∧ post_tasks Sample.X "u1" body Sample.linked
    = (Sample.linked,
       Returned (respond 400 (Json (VObj {[ "error" := VStr "title is required" ]})))).
Proof.
  intros body.
  assert (H : field body "title" ∈ [VStr ""; VNull; VBool false; VNum 0]).
  { assert (E : field body "title" = VStr "") by (vm_compute; reflexivity).
    rewrite E. apply elem_of_cons. by left. }
  split; [exact H|].
  exact (post_with_empty_title_is_rejected Sample.X "u1" body Sample.linked H).
Defined.

Lemma callback_with_unparsable_state_witness :
  parse_state Sample.X (Some "{uid") = None
  ∧ oauth2callback Sample.X (VStr "good-code") (Some "{uid") Sample.empty
    = (Sample.empty, Returned oauth_error).
Proof.
  assert (H : parse_state Sample.X (Some "{uid") = None) by reflexivity.
  split; [exact H|].
  exact (callback_with_unparsable_state Sample.X (VStr "good-code") (Some "{uid")
           Sample.empty H).
Defined.

